(** * The bitlum exchange GraphQL client: transport, credentials, error envelope

    A shallow embedding of the Go package [client] and the properties of
    its request transport ([graphqlBackend.do], [graphQLCore.do]), of the
    error envelope formatter ([responseBase.Error]), of client
    construction ([NewClient]) and of some operations of the operation
    layer ([Tickers], [Order], [Accounts]).

    The Go standard library ([encoding/json], [net/http], [io/ioutil]) and
    the macaroon library ([auth], [gopkg.in/macaroon.v2]) are not part of
    the package: they enter as an interface ([Externals]) and as the
    per-call outcome of the network ([World]). *)

From stdpp Require Import gmap strings list.
From Stdlib Require Import ZArith DecimalString Sorted.

Open Scope Z_scope.

(** ** Go values *)

Module Go.

(** A Go [error]: [None] is [nil], [Some msg] is [errors.New(msg)]. *)
Definition error := option string.

(** A Go slice: [None] is the nil slice (an absent JSON field), [Some l]
    a slice with the elements [l]. Both the nil and the empty slice have
    length 0. *)
Definition slice (A : Type) := option (list A).

Definition elems {A} (s : slice A) : list A :=
  match s with
  | None => []
  | Some l => l
  end.

Definition len {A} (s : slice A) : Z := Z.of_nat (length (elems s)).

(** [[]byte]: the bytes of a body, kept as text. *)
Definition bytes := string.

(** The outcome of a call that returns [(T, error)] with a meaningful
    value only when the error is nil. *)
Inductive result (A : Type) :=
| Ok (a : A)
| Err (msg : string).
Arguments Ok {A} a.
Arguments Err {A} msg.

(** [int64] arithmetic: [c.nonce++] wraps around at [2^63 - 1]. *)
Definition MaxInt64 : Z := 2 ^ 63 - 1.
Definition MinInt64 : Z := - 2 ^ 63.

Definition int64_wrap (z : Z) : Z := (z + 2 ^ 63) mod 2 ^ 64 - 2 ^ 63.

Definition int64_incr (z : Z) : Z := int64_wrap (z + 1).

Definition is_int64 (z : Z) : Prop := MinInt64 <= z <= MaxInt64.

(** The verb [%d] of [fmt.Sprintf] on an integer. *)
Definition itoa (z : Z) : string := NilZero.string_of_int (Z.to_int z).

End Go.

Export Go.

(** ** The response envelope (backend.go, query_accounts.go) *)

Record responseErrorLocation := {
  Line : Z;
  Column : Z;
}.

Record responseError := {
  Message : string;
  Locations : slice responseErrorLocation;
}.

(** [responseBase] is the GraphQL response base, embedded into the
    specific responses. *)
Record responseBase := {
  Errors : slice responseError;
}.

(** The body of [for i, l := range e.Locations] in [responseBase.Error],
    entered with index [i], the locations still to visit and the message
    built so far. *)
Fixpoint range_Locations (i : Z) (ls : list responseErrorLocation)
    (msg : string) : string :=
  match ls with
  | [] => msg
  | l :: ls' =>
    let msg := if decide (0 < i) then msg +:+ ", " else msg in
    let msg := msg +:+ (itoa (Line l) +:+ ":" +:+ itoa (Column l)) in
    range_Locations (i + 1) ls' msg
  end.

(** [func (rb responseBase) Error() error] *)
Definition Error (rb : responseBase) : error :=
  match elems (Errors rb) with
  | [] => None                         (* len(rb.Errors) == 0 *)
  | e :: _ =>                          (* e := rb.Errors[0] *)
    let msg := Message e in
    let msg :=
      match elems (Locations e) with   (* switch len(e.Locations) *)
      | [] => msg
      | [l] =>
        msg +:+ ", location: " +:+ itoa (Line l) +:+ ":" +:+ itoa (Column l)
      | ls => range_Locations 0 ls (msg +:+ ", locations: ")
      end in
    let msg :=
      if decide (1 < len (Errors rb))
      then itoa (len (Errors rb)) +:+ " errors occurred, first one is: " +:+ msg
      else msg in
    Some msg
  end.

(** *** The formatter as the specification words it *)

Module ErrorSpec.

(** [<line>:<column>] *)
Definition position (l : responseErrorLocation) : string :=
  itoa (Line l) +:+ ":" +:+ itoa (Column l).

(** One error, rendered by the number of its locations. *)
Definition format_one (e : responseError) : string :=
  match elems (Locations e) with
  | [] => Message e
  | [l] => Message e +:+ ", location: " +:+ position l
  | ls => Message e +:+ ", locations: "
                    +:+ String.concat ", " (position <$> ls)
  end.

Definition extractError (errors : slice responseError) : error :=
  match errors with
  | None => None
  | Some [] => None
  | Some [e] => Some (format_one e)
  | Some (e :: rest) =>
    Some (itoa (Z.of_nat (length (e :: rest)))
            +:+ " errors occurred, first one is: " +:+ format_one e)
  end.

End ErrorSpec.

(** ** The world outside the package *)

(** [request] is the GraphQL request. [Variables] is an [interface{}]: the
    values the embedded operations store in it, or nothing. *)
Inductive variables :=
| no_variables
| tickersRequestVariables (Markets : slice string)
| orderRequestVariables (ID : Z)
| AccountsRequest (Assets : slice string)
| MarketsRequest (Markets : slice string) (Period : Z)
| DealsRequest (Markets : slice string) (Limit : Z).

Record request := {
  Query : string;
  Variables : variables;
}.

(** [net/http]: a header maps a key to its values; [Set] replaces them and
    [Get] reads the first one. The two keys the package sets are already
    in canonical form. *)
Definition Header_Set (h : gmap string (list string)) (key value : string) :
    gmap string (list string) :=
  <[key := [value]]> h.

Definition Header_Get (h : gmap string (list string)) (key : string) : string :=
  match h !! key with
  | Some (v :: _) => v
  | _ => ""
  end.

Record Request := {
  Method : string;
  URL : string;
  Header : gmap string (list string);
  Body : bytes;
}.

(** [httpReq.Header.Set(key, value)] *)
Definition Set_Header (httpReq : Request) (key value : string) : Request :=
  {| Method := Method httpReq; URL := URL httpReq;
     Header := Header_Set (Header httpReq) key value;
     Body := Body httpReq |}.

(** A response as the package looks at it: the status, and what reading
    its body to the end gives. *)
Record Response := {
  StatusCode : Z;
  Status : string;
  RespBody : result bytes;
}.

Definition StatusOK : Z := 200.

(** The libraries the package calls. [Macaroon] stands for
    [*macaroon.Macaroon], with its nil pointer. *)
Class Externals := {
  Macaroon : Type;
  nil_Macaroon : Macaroon;
  json_Marshal : request → result bytes;
  url_Parse : string → result string;
  auth_DecodeMacaroon : string → result Macaroon;
  auth_AddNonce : Macaroon → Z → result Macaroon;
  auth_AddCurrentTime : Z → Macaroon → result Macaroon;
  auth_EncodeMacaroon : Macaroon → result string;
}.

(** [http.NewRequest(method, url, body)]: fails on a URL that does not
    parse, and otherwise gives a request without any header. *)
Definition http_NewRequest `{Externals} (method url : string) (body : bytes) :
    result Request :=
  match url_Parse url with
  | Err e => Err e
  | Ok u => Ok {| Method := method; URL := u; Header := ∅; Body := body |}
  end.

(** What one call finds outside the process: the wall clock that
    [auth.AddCurrentTime] reads and the answer of the network to
    [(&http.Client{}).Do]. *)
Record World := {
  now : Z;
  roundTrip : Request → result Response;
}.

(** ** Effects of a call *)

(** The calls that leave the package, in the order they are made. *)
Inductive event `{Externals} :=
| EvAddNonce (m : Macaroon) (nonce : Z)   (* auth.AddNonce(m, nonce) *)
| EvHTTP (httpReq : Request)              (* (&http.Client{}).Do(httpReq) *)
| EvReadAll                               (* ioutil.ReadAll(httpResp.Body) *)
| EvClose.                                (* httpResp.Body.Close() *)

(** A method with a pointer receiver of type [S] that returns [(A, error)]:
    it may change the receiver, leaves a trace of events, and returns
    early on the first error. *)
Definition M `{Externals} (S A : Type) : Type := S → S * list event * result A.

Section Monad.
Context `{Externals} {S : Type}.

Definition ret {A} (a : A) : M S A := λ s, (s, [], Ok a).

Definition bind {A B} (m : M S A) (k : A → M S B) : M S B :=
  λ s, match m s with
       | (s1, t1, Ok a) => let '(s2, t2, r) := k a s1 in (s2, t1 ++ t2, r)
       | (s1, t1, Err e) => (s1, t1, Err e)
       end.

Definition get : M S S := λ s, (s, [], Ok s).

Definition modify (f : S → S) : M S unit := λ s, (f s, [], Ok tt).

Definition emit (ev : event) : M S unit := λ s, (s, [ev], Ok tt).

(** [return nil, errors.New(msg)] *)
Definition fail {A} (msg : string) : M S A := λ s, (s, [], Err msg).

(** [x, err := f(); if err != nil { return nil, errors.New(prefix + err.Error()) }] *)
Definition try {A} (prefix : string) (r : result A) : M S A :=
  match r with
  | Ok a => ret a
  | Err e => fail (prefix +:+ e)
  end.

(** [defer f()]: the event happens when the rest of the body is left,
    on every path. *)
Definition defer {A} (ev : event) (m : M S A) : M S A :=
  λ s, let '(s', t, r) := m s in (s', t ++ [ev], r).

End Monad.

Notation "'let*' x := m 'in' k" := (bind m (λ x, k))
  (at level 10, x name, m at level 100, k at level 200,
   format "'[v' 'let*'  x  :=  m  'in' '/' k ']'").
Notation "m ;;; k" := (bind m (λ _, k))
  (at level 100, k at level 200, right associativity).

(** ** The transport *)

(** *** backend.go: the bearer-token transport

    The first [graphQLCore] of query_accounts.go, with the fields [url]
    and [authToken], has this [do] word for word. *)

Record graphqlBackend := {
  backend_url : string;
  authToken : string;
}.

(** [func (c *graphqlBackend) do(r request) ([]byte, error)] *)
Definition graphqlBackend_do `{Externals} (w : World) (r : request) :
    M graphqlBackend bytes :=
  let* reqJSON := try "failed to json.Marshal request: " (json_Marshal r) in
  let* c := get in
  let* httpReq := try "failed to http.NewRequest: "
                    (http_NewRequest "POST" (backend_url c) reqJSON) in
  let httpReq := Set_Header httpReq "Content-Type" "application/json" in
  let httpReq := Set_Header httpReq "Authorization" ("Bearer " +:+ authToken c) in
  emit (EvHTTP httpReq) ;;;
  let* httpResp := try "failed to do http request: " (roundTrip w httpReq) in
  defer EvClose (
    if decide (StatusCode httpResp ≠ StatusOK)
    then fail ("unexpected response status: " +:+ Status httpResp)
    else
      emit EvReadAll ;;;
      let* body := try "failed to read response body: " (RespBody httpResp) in
      ret body).

(** *** query_accounts.go: the transport with macaroons *)

Record graphQLCore `{Externals} := {
  url : string;
  macaroon : Macaroon;
  (** the nonce counter used to protect the client from replay attacks *)
  nonce : Z;
  jwt : string;
}.

Definition nonce_incr `{Externals} (c : graphQLCore) : graphQLCore :=
  {| url := url c; macaroon := macaroon c;
     nonce := int64_incr (nonce c); jwt := jwt c |}.

(** [func (c *graphQLCore) do(r request) ([]byte, error)] *)
Definition graphQLCore_do `{Externals} (w : World) (r : request) :
    M graphQLCore bytes :=
  let* reqJSON := try "failed to json.Marshal request: " (json_Marshal r) in
  let* c := get in
  let* httpReq := try "failed to http.NewRequest: "
                    (http_NewRequest "POST" (url c) reqJSON) in
  let* httpReq :=
    if decide (jwt c = "") then
      modify nonce_incr ;;;                                   (* c.nonce++ *)
      let* c := get in
      emit (EvAddNonce (macaroon c) (nonce c)) ;;;
      let* m := try "failed to add nonce to macaroon: "
                  (auth_AddNonce (macaroon c) (nonce c)) in
      let* m := try "failed to add current time to macaroon: "
                  (auth_AddCurrentTime (now w) m) in
      let* token := try "failed to encode macaroon: "
                      (auth_EncodeMacaroon m) in
      let httpReq := Set_Header httpReq "Content-Type" "application/json" in
      ret (Set_Header httpReq "Authorization" ("Macaroon " +:+ token))
    else
      ret (Set_Header httpReq "Authorization" ("Bearer " +:+ jwt c)) in
  emit (EvHTTP httpReq) ;;;
  let* httpResp := try "failed to do http request: " (roundTrip w httpReq) in
  defer EvClose (
    if decide (StatusCode httpResp ≠ StatusOK)
    then fail ("unexpected response status: " +:+ Status httpResp)
    else
      emit EvReadAll ;;;
      let* body := try "failed to read response body: " (RespBody httpResp) in
      ret body).

(** *** The nonces of a sequence of calls *)

(** The calls of one instance, one after the other, each in the world it
    finds; the trace is that of all of them. *)
Fixpoint calls `{Externals} (l : list (World * request)) (c : graphQLCore) :
    graphQLCore * list event :=
  match l with
  | [] => (c, [])
  | (w, r) :: l' =>
    let '(c1, t1, _) := graphQLCore_do w r c in
    let '(c2, t2) := calls l' c1 in
    (c2, t1 ++ t2)
  end.

(** The nonces handed to [auth.AddNonce], in order. *)
Definition nonces `{Externals} (tr : list event) : list Z :=
  omap (λ ev, match ev with EvAddNonce _ n => Some n | _ => None end) tr.

(** The requests handed to the network, in order. *)
Definition sent `{Externals} (tr : list event) : list Request :=
  omap (λ ev, match ev with EvHTTP req => Some req | _ => None end) tr.

(** ** The client *)

(** [core] is the client core which performs the low level http request:
    [graphQLCore] for real requests, [mockCore] for tests. The first
    revision calls the interface [backend]. *)
Class core `{Externals} (C : Type) := do : World → request → M C bytes.

#[export] Instance graphqlBackend_core `{Externals} : core graphqlBackend :=
  graphqlBackend_do.

#[export] Instance graphQLCore_core `{Externals} : core graphQLCore :=
  graphQLCore_do.

(** client_test.go: [mockCore] stores the request and returns the preset
    response and error. *)
Record mockCore := {
  mock_request : request;
  respJSON : string;
  mock_error : error;
}.

Definition mockCore_do `{Externals} (w : World) (r : request) : M mockCore bytes :=
  λ c, ({| mock_request := r; respJSON := respJSON c;
           mock_error := mock_error c |},
        [],
        match mock_error c with
        | Some e => Err e
        | None => Ok (respJSON c)
        end).

#[export] Instance mockCore_core `{Externals} : core mockCore := mockCore_do.

(** [Client] is the exchange client; it embeds its core. *)
Record Client (C : Type) := { client_core : C }.
Arguments client_core {C} _.

(** [decimal.Decimal] of shopspring, a coefficient and an exponent. *)
Record Decimal := {
  coefficient : Z;
  exponent : Z;
}.

Definition Decimal_zero : Decimal := {| coefficient := 0; exponent := 0 |}.

(** A decoded response: the embedded [responseBase] and the field [Data]
    of the operation. *)
Record response (T : Type) := {
  base : responseBase;
  Data : T;
}.
Arguments base {T} _.
Arguments Data {T} _.

(** [json.Unmarshal(respJSON, &resp)] into the response of an operation. *)
Class Unmarshal (T : Type) := json_Unmarshal : bytes → result (response T).

(** What an operation returns: the receiver after the call, the trace,
    and the pair [(T, error)] (operations return a value next to a
    non-nil error). *)
Definition outcome `{Externals} (C T : Type) : Type :=
  Client C * list event * (T * error).

(** *** client.go: Tickers *)

Record Ticker := {
  Market : string;
  Last : Decimal;
  ChangeLast : Decimal;
}.

Definition Tickers_Query : string := "
		query GetMarketInfo($markets: [Market!]) {
			markets(markets: $markets) {
				market
				last
				changeLast
			}
		}
	".

(** [func (c *Client) Tickers(markets []string) ([]Ticker, error)] *)
Definition Tickers `{Externals} `{!core C} `{!Unmarshal (slice Ticker)}
    (w : World) (markets : slice string) (c : Client C) :
    outcome C (slice Ticker) :=
  if decide (len markets = 0)
  then (c, [], (None, Some "not empty markets expected"))
  else
    let req := {| Query := Tickers_Query;
                  Variables := tickersRequestVariables markets |} in
    let '(core', tr, res) := do w req (client_core c) in
    let c := {| client_core := core' |} in
    match res with
    | Err e => (c, tr, (None, Some ("failed to do request: " +:+ e)))
    | Ok respJSON =>
      match json_Unmarshal respJSON with
      | Err e =>
        (c, tr, (None, Some ("failed to json.Unmarshal resp: " +:+ e)))
      | Ok resp =>
        match Error (base resp) with
        | Some e => (c, tr, (None, Some ("exchange error: " +:+ e)))
        | None => (c, tr, (Data resp, None))
        end
      end
    end.

(** *** client.go: Order *)

Record Order := {
  ID : Z;
  Order_Status : string;
  Amount : Decimal;
  Price : Decimal;
  DealMoney : Decimal;
  DealStock : Decimal;
  Left : Decimal;
}.

(** [Order{}] *)
Definition Order_zero : Order :=
  {| ID := 0; Order_Status := ""; Amount := Decimal_zero;
     Price := Decimal_zero; DealMoney := Decimal_zero;
     DealStock := Decimal_zero; Left := Decimal_zero |}.

Definition Order_Query : string := "
		query GetOrder($id: Int!) {
  			order(id: $id) {
				id
    			status
				dealStock
				dealMoney
				amount
				price
  			}
		}
	".

(** [func (c *Client) Order(id int64) (Order, error)] *)
Definition Client_Order `{Externals} `{!core C} `{!Unmarshal Order}
    (w : World) (id : Z) (c : Client C) : outcome C Order :=
  let req := {| Query := Order_Query; Variables := orderRequestVariables id |} in
  let '(core', tr, res) := do w req (client_core c) in
  let c := {| client_core := core' |} in
  match res with
  | Err e => (c, tr, (Order_zero, Some ("failed to do request: " +:+ e)))
  | Ok respJSON =>
    match json_Unmarshal respJSON with
    | Err e =>
      (c, tr, (Order_zero, Some ("failed to json.Unmarshal resp: " +:+ e)))
    | Ok resp =>
      match Error (base resp) with
      | Some e => (c, tr, (Order_zero, Some ("exchange error: " +:+ e)))
      | None => (c, tr, (Data resp, None))
      end
    end
  end.

(** *** query_accounts.go: Accounts *)

Record Account := {
  Asset : string;
  Address : string;
  Available : Decimal;
  Estimation : Decimal;
  Freezed : Decimal;
  Pending : Decimal;
}.

Definition Accounts_Query : string := "
		query Accounts($assets: [Asset!]!) {
  			accounts( assets: $assets) {
				asset, address, available, estimation, freezed
  			}
		}
	".

(** [func (c *Client) Accounts(assets []string) ([]Account, error)] *)
Definition Accounts `{Externals} `{!core C} `{!Unmarshal (slice Account)}
    (w : World) (assets : slice string) (c : Client C) :
    outcome C (slice Account) :=
  let req := {| Query := Accounts_Query; Variables := AccountsRequest assets |} in
  let '(core', tr, res) := do w req (client_core c) in
  let c := {| client_core := core' |} in
  match res with
  | Err e => (c, tr, (Some [], Some ("failed to do request: " +:+ e)))
  | Ok respJSON =>
    match json_Unmarshal respJSON with
    | Err e =>
      (c, tr, (Some [], Some ("failed to json.Unmarshal resp: " +:+ e)))
    | Ok resp =>
      match Error (base resp) with
      | Some e => (c, tr, (Data resp, Some ("exchange error: " +:+ e)))
      | None => (c, tr, (Data resp, None))
      end
    end
  end.

(** *** Construction *)

(** [func NewClient(url string, macaroon string, jwt string)], which returns
    a pointer to the client and an error: [None] is the nil client. *)
Definition NewClient `{Externals} (url macaroon jwt : string) :
    option (Client graphQLCore) * error :=
  let m := nil_Macaroon in
  let decoded :=
    if decide (macaroon ≠ "") then auth_DecodeMacaroon macaroon else Ok m in
  match decoded with
  | Err e => (None, Some e)                       (* return nil, err *)
  | Ok m =>
    (Some {| client_core := {| url := url; macaroon := m; nonce := 0;
                               jwt := jwt |} |},
     None)
  end.

(** ** The transport with a per-call authentication flag

    The operations of the last revision call [c.do(true, req)] and
    [c.do(false, req)]; the package as given holds these callers and the
    test of that [do], not the function. *)

Module PerCall.

(** Modelled from the spec: the credential of the Credential Manager
    (section 3), either a bearer token attached verbatim or a root
    capability with its nonce counter; the manager of the [do] with a
    flag is missing from the sources. *)
Inductive Credential `{Externals} :=
| BearerToken (token : string)
| CapabilityToken (root : Macaroon) (counter : Z).

(** Modelled from the spec: the transport instance of section 4.1, the
    configured endpoint and the credential it owns; the receiver of the
    missing [do] with a flag. *)
Record Transport `{Externals} := {
  endpoint : string;
  credential : Credential;
}.

(** Modelled from the spec: [authHeader] of section 4.2, missing from the
    sources. The bearer variant returns ["Bearer " + token]; the
    capability variant increments the counter, attaches the nonce caveat
    and then the time caveat to the root capability, serializes, and
    returns ["Macaroon " + serialized]; a failed step is a
    [CredentialDerivationError] and the increment stays. *)
Definition authHeader `{Externals} (w : World) : M Transport string :=
  let* t := get in
  match credential t with
  | BearerToken token => ret ("Bearer " +:+ token)
  | CapabilityToken root n =>
    modify (λ t, {| endpoint := endpoint t;
                    credential := CapabilityToken root (n + 1) |}) ;;;
    emit (EvAddNonce root (n + 1)) ;;;
    let* m := try "CredentialDerivationError: "
                (auth_AddNonce root (n + 1)) in
    let* m := try "CredentialDerivationError: "
                (auth_AddCurrentTime (now w) m) in
    let* serialized := try "CredentialDerivationError: "
                         (auth_EncodeMacaroon m) in
    ret ("Macaroon " +:+ serialized)
  end.

(** Modelled from the spec: which configurations authenticate every call
    whatever the flag (section 4.1: bearer-token configurations always
    authenticate, capability-token configurations distinguish per
    call); part of the missing [do] with a flag. *)
Definition always_authenticates `{Externals} (cred : Credential) : bool :=
  match cred with
  | BearerToken _ => true
  | CapabilityToken _ _ => false
  end.

(** Modelled from the spec: [do(authenticated, request)] of section 4.1,
    missing from the sources: serialize, build the POST with its content
    type, set [Authorization] from [authHeader] when authenticated (or
    when the configuration always authenticates) and omit it otherwise,
    send once, require status 200, read the body. *)
Definition do `{Externals} (w : World) (authenticated : bool) (r : request) :
    M Transport bytes :=
  let* reqJSON := try "EncodingError: " (json_Marshal r) in
  let* t := get in
  let* httpReq := try "NetworkError: "
                    (http_NewRequest "POST" (endpoint t) reqJSON) in
  let httpReq := Set_Header httpReq "Content-Type" "application/json" in
  let* httpReq :=
    if authenticated || always_authenticates (credential t) then
      let* h := authHeader w in
      ret (Set_Header httpReq "Authorization" h)
    else ret httpReq in
  emit (EvHTTP httpReq) ;;;
  let* httpResp := try "NetworkError: " (roundTrip w httpReq) in
  if decide (StatusCode httpResp ≠ StatusOK)
  then fail ("HTTPStatusError: " +:+ Status httpResp)
  else
    emit EvReadAll ;;;
    let* body := try "BodyReadError: " (RespBody httpResp) in
    ret body.

End PerCall.

(** ** The transport, step by step

    The pieces of [do] as plain case distinctions; the transport is shown
    equal to their composition ([graphqlBackend_do_unfold],
    [graphQLCore_do_unfold]) and reasoned about through them. *)

(** The request [http.NewRequest("POST", u, body)] returns. *)
Definition POST (u : string) (body : bytes) : Request :=
  {| Method := "POST"; URL := u; Header := ∅; Body := body |}.

(** From [(&http.Client{}).Do(httpReq)] to the end of [do]: the events and
    the result. *)
Definition exchange `{Externals} (w : World) (httpReq : Request) :
    list event * result bytes :=
  match roundTrip w httpReq with
  | Err e => ([EvHTTP httpReq], Err ("failed to do http request: " +:+ e))
  | Ok httpResp =>
    if decide (StatusCode httpResp ≠ StatusOK)
    then ([EvHTTP httpReq; EvClose],
          Err ("unexpected response status: " +:+ Status httpResp))
    else ([EvHTTP httpReq; EvReadAll; EvClose],
          match RespBody httpResp with
          | Ok body => Ok body
          | Err e => Err ("failed to read response body: " +:+ e)
          end)
  end.

(** The three steps that derive the token from the macaroon and the
    nonce of [c]: nonce caveat, time caveat, encoding. *)
Definition derive `{Externals} (w : World) (c : graphQLCore) : result string :=
  match auth_AddNonce (macaroon c) (nonce c) with
  | Err e => Err ("failed to add nonce to macaroon: " +:+ e)
  | Ok m =>
    match auth_AddCurrentTime (now w) m with
    | Err e => Err ("failed to add current time to macaroon: " +:+ e)
    | Ok m =>
      match auth_EncodeMacaroon m with
      | Err e => Err ("failed to encode macaroon: " +:+ e)
      | Ok token => Ok token
      end
    end
  end.

(** What the package makes of a response it has received: a status other
    than 200 is an error naming the status, and the body is not read; with
    status 200 the body is read and returned as it is, or the failure to
    read it is the error. *)
Definition handled `{Externals} (resp : Response) (tr : list event)
    (res : result bytes) : Prop :=
  (StatusCode resp ≠ StatusOK →
     res = Err ("unexpected response status: " +:+ Status resp) ∧
     EvReadAll ∉ tr) ∧
  (StatusCode resp = StatusOK →
     EvReadAll ∈ tr ∧
     res = match RespBody resp with
           | Ok body => Ok body
           | Err e => Err ("failed to read response body: " +:+ e)
           end).

(** From the http call on, the transport with a flag. *)
Definition exchange_flag `{Externals} (w : World) (httpReq : Request) :
    list event * result bytes :=
  match roundTrip w httpReq with
  | Err e => ([EvHTTP httpReq], Err ("NetworkError: " +:+ e))
  | Ok httpResp =>
    if decide (StatusCode httpResp ≠ StatusOK)
    then ([EvHTTP httpReq], Err ("HTTPStatusError: " +:+ Status httpResp))
    else ([EvHTTP httpReq; EvReadAll],
          match RespBody httpResp with
          | Ok body => Ok body
          | Err e => Err ("BodyReadError: " +:+ e)
          end)
  end.

(** ** A stand-in for the libraries, to run the package on examples *)

Module Sample.

Definition is_hex_digit (a : Ascii.ascii) : bool :=
  let n := Ascii.N_of_ascii a in
  ((48 <=? n) && (n <=? 57) || (97 <=? n) && (n <=? 102))%N.

Definition is_hex (s : string) : bool :=
  forallb is_hex_digit (String.list_ascii_of_string s)
  && Nat.even (String.length s).

(** A macaroon is its identifier followed by its caveats; the nil
    pointer is [None]. *)
Definition externals : Externals := {|
  Macaroon := option (list string);
  nil_Macaroon := None;
  json_Marshal := λ r, Ok ("{" +:+ Query r +:+ "}");
  url_Parse := λ u,
    if String.prefix ":" u then Err "missing protocol scheme" else Ok u;
  auth_DecodeMacaroon := λ s,
    if is_hex s then Ok (Some [s]) else Err "encoding/hex: invalid byte";
  auth_AddNonce := λ m n,
    match m with
    | None => Err "macaroon is nil"
    | Some cs => Ok (Some (cs ++ ["nonce " +:+ itoa n]))
    end;
  auth_AddCurrentTime := λ t m,
    match m with
    | None => Err "macaroon is nil"
    | Some cs => Ok (Some (cs ++ ["time " +:+ itoa t]))
    end;
  auth_EncodeMacaroon := λ m,
    match m with
    | None => Err "macaroon is nil"
    | Some cs => Ok (String.concat ";" cs)
    end;
|}.

(** A server that answers every request with the given status and body. *)
Definition server (code : Z) (status : string) (body : string) : World :=
  {| now := 1540000000;
     roundTrip := λ _, Ok {| StatusCode := code; Status := status;
                             RespBody := Ok body |} |}.

Definition up : World := server 200 "200 OK" "response body".

Definition moved : World := server 301 "301 Moved Permanently" "".

Definition query : request := {| Query := "query"; Variables := no_variables |}.

Definition location (url : string) : string := url +:+ "/query".

(** A response with both a decoded order and an error of the exchange. *)
Definition order_7 : Order :=
  {| ID := 7; Order_Status := "pending";
     Amount := {| coefficient := 15; exponent := -1 |};
     Price := Decimal_zero; DealMoney := Decimal_zero;
     DealStock := Decimal_zero; Left := Decimal_zero |}.

Definition failed : responseBase :=
  {| Errors := Some [ {| Message := "some error";
                         Locations := Some [ {| Line := 123; Column := 12 |} ] |} ] |}.

Definition decode_Order : Unmarshal Order :=
  λ body, if decide (body = "order 7 with an error")
          then Ok {| base := failed; Data := order_7 |}
          else Err "unexpected end of JSON input".

Definition btc : Account :=
  {| Asset := "BTC"; Address := "addr";
     Available := {| coefficient := 1; exponent := 0 |};
     Estimation := Decimal_zero; Freezed := Decimal_zero;
     Pending := Decimal_zero |}.

Definition decode_Accounts : Unmarshal (slice Account) :=
  λ body, if decide (body = "accounts with an error")
          then Ok {| base := failed; Data := Some [btc] |}
          else Err "unexpected end of JSON input".

Definition decode_Tickers : Unmarshal (slice Ticker) :=
  λ body, Err "unexpected end of JSON input".

Definition mock (body : string) : Client mockCore :=
  {| client_core := {| mock_request := query; respJSON := body;
                       mock_error := None |} |}.

#[local] Existing Instance externals.

(** A fresh macaroon core, as [NewClient] builds it. *)
Definition core0 : graphQLCore :=
  {| url := "http://exchange/query"; macaroon := Some ["root"];
     nonce := 0; jwt := "" |}.

(** A core built from a jwt alone. *)
Definition core_jwt : graphQLCore :=
  {| url := "http://exchange/query"; macaroon := None;
     nonce := 0; jwt := "token" |}.

(** A core built from neither: its macaroon is the nil pointer. *)
Definition core_nil : graphQLCore :=
  {| url := "http://exchange/query"; macaroon := None;
     nonce := 41; jwt := "" |}.

(** A core whose counter is one below the largest [int64]. *)
Definition core_last : graphQLCore :=
  {| url := "http://exchange/query"; macaroon := Some ["root"];
     nonce := MaxInt64 - 1; jwt := "" |}.

Definition bearer : graphqlBackend :=
  {| backend_url := "http://exchange/query"; authToken := "token" |}.

Definition capability : PerCall.Transport :=
  {| PerCall.endpoint := "http://exchange/query";
     PerCall.credential := PerCall.CapabilityToken (Some ["root"]) 0 |}.

(** The requests these send for [query]. *)
Definition json_request : Request :=
  Set_Header (POST "http://exchange/query" "{query}")
    "Content-Type" "application/json".

Definition macaroon_request : Request :=
  Set_Header json_request
    "Authorization" "Macaroon root;nonce 1;time 1540000000".

Definition bearer_request : Request :=
  Set_Header json_request "Authorization" "Bearer token".

Definition jwt_request : Request :=
  Set_Header (POST "http://exchange/query" "{query}")
    "Authorization" "Bearer token".

End Sample.

(** ** More of the client *)

(** *** client.go: UserID *)

(** The field [Data] of the response: [User struct { ID string }] under
    the key [me]. *)
Record UserID_Data := {
  User_ID : string;
}.

Definition UserID_Query : string := "
		query Me {
			me {
			  id
			}
		}
	".

(** [func (c *Client) UserID() (string, error)]; the variables of the
    request are left unset. *)
Definition UserID `{Externals} `{!core C} `{!Unmarshal UserID_Data}
    (w : World) (c : Client C) : outcome C string :=
  let req := {| Query := UserID_Query; Variables := no_variables |} in
  let '(core', tr, res) := do w req (client_core c) in
  let c := {| client_core := core' |} in
  match res with
  | Err e => (c, tr, ("", Some ("failed to do request: " +:+ e)))
  | Ok respJSON =>
    match json_Unmarshal respJSON with
    | Err e =>
      (c, tr, ("", Some ("failed to json.Unmarshal resp: " +:+ e)))
    | Ok resp =>
      match Error (base resp) with
      | Some e => (c, tr, ("", Some ("exchange error: " +:+ e)))
      | None => (c, tr, (User_ID (Data resp), None))
      end
    end
  end.

(** *** client_test.go, after the mock: IssueApiToken *)

Record IssueApiToken_Data := {
  Data_IssueApiToken : string;
}.

Definition IssueApiToken_Query : string := "
		query { issueApiToken }
	".

(** [func (c *Client) IssueApiToken() (string, error)] *)
Definition IssueApiToken `{Externals} `{!core C} `{!Unmarshal IssueApiToken_Data}
    (w : World) (c : Client C) : outcome C string :=
  let req := {| Query := IssueApiToken_Query; Variables := no_variables |} in
  let '(core', tr, res) := do w req (client_core c) in
  let c := {| client_core := core' |} in
  match res with
  | Err e => (c, tr, ("", Some ("failed to do request: " +:+ e)))
  | Ok respJSON =>
    match json_Unmarshal respJSON with
    | Err e =>
      (c, tr, ("", Some ("failed to json.Unmarshal resp: " +:+ e)))
    | Ok resp =>
      match Error (base resp) with
      | Some e =>
        (c, tr, (Data_IssueApiToken (Data resp),
                 Some ("exchange error: " +:+ e)))
      | None => (c, tr, (Data_IssueApiToken (Data resp), None))
      end
    end
  end.

(** *** client.go: the constructor of the bearer revision *)

(** [func NewClient(url string, authToken string) *Client] of
    unnamed/part_000, whose client embeds the [backend]; the one of
    client.go builds the first [graphQLCore] of query_accounts.go, which
    has the same fields. *)
Definition NewBearerClient (url authToken : string) : Client graphqlBackend :=
  {| client_core := {| backend_url := url; authToken := authToken |} |}.

(** *** unnamed/part_001: the operations of the last revision

    In the last revision the [do] of the [core] interface takes the
    authentication flag first: the operations call [c.do(true, req)] or
    [c.do(false, req)]. The interface is taken as it is called. *)
Class flaggedCore `{Externals} (C : Type) :=
  do_with : World → bool → request → M C bytes.

(** A [float32], kept as its 32 bits: the package does no arithmetic on
    it. *)
Definition float32 := N.

Module Status.

(** [MarketStatus] represents the information about the market by the
    given period of time. *)
Record MarketStatus := {
  Market : string;
  Stock : string;
  Money : string;
  Open : Decimal;
  Close : Decimal;
  High : Decimal;
  Last : Decimal;
  Low : Decimal;
  Volume : Decimal;
  ChangeLast : Decimal;
  ChangeHigh : Decimal;
  ChangeLow : Decimal;
  BestAsk : Decimal;
  BestBid : Decimal;
}.

End Status.

Module Deal.

(** [MarketDeal] holds the result of the Deal query; [ID] is an [int32],
    and [Type_] is the field [Type]. *)
Record MarketDeal := {
  ID : Z;
  Market : string;
  Time : float32;
  Amount : Decimal;
  Price : Decimal;
  Type_ : string;
}.

End Deal.

Definition Markets_Query : string := "
	query Markets($markets: [Market!]!, $period: Int) {
		markets (markets: $markets, period: $period){
				market
				stock
				money
				open
				close
				high
				last
				low
				volume
				changeLast
				changeHigh
				changeLow
				bestAsk
				bestBid
  			}
		}
	".

(** [func (c *Client) Markets(markets []string, period int32) ([]MarketStatus, error)] *)
Definition Markets `{Externals} `{!flaggedCore C}
    `{!Unmarshal (slice Status.MarketStatus)}
    (w : World) (markets : slice string) (period : Z) (c : Client C) :
    outcome C (slice Status.MarketStatus) :=
  let req := {| Query := Markets_Query;
                Variables := MarketsRequest markets period |} in
  let '(core', tr, res) := do_with w false req (client_core c) in
  let c := {| client_core := core' |} in
  match res with
  | Err e => (c, tr, (Some [], Some ("failed to do request: " +:+ e)))
  | Ok respJSON =>
    match json_Unmarshal respJSON with
    | Err e =>
      (c, tr, (Some [], Some ("failed to json.Unmarshal resp: " +:+ e)))
    | Ok resp =>
      match Error (base resp) with
      | Some e => (c, tr, (Data resp, Some ("exchange error: " +:+ e)))
      | None => (c, tr, (Data resp, None))
      end
    end
  end.

Definition Deals_Query : string := "
	query Deals ($markets: [Market!]!, $limit: Int) {
		deals (markets: $markets, limit: $limit){
			    id
				market
				time
				amount
				price
				type
  			}
		}
	".

(** [func (c *Client) Deals(markets []string, limit int32) ([]MarketDeal, error)] *)
Definition Deals `{Externals} `{!flaggedCore C}
    `{!Unmarshal (slice Deal.MarketDeal)}
    (w : World) (markets : slice string) (limit : Z) (c : Client C) :
    outcome C (slice Deal.MarketDeal) :=
  let req := {| Query := Deals_Query;
                Variables := DealsRequest markets limit |} in
  let '(core', tr, res) := do_with w false req (client_core c) in
  let c := {| client_core := core' |} in
  match res with
  | Err e => (c, tr, (Some [], Some ("failed to do request: " +:+ e)))
  | Ok respJSON =>
    match json_Unmarshal respJSON with
    | Err e =>
      (c, tr, (Some [], Some ("failed to json.Unmarshal resp: " +:+ e)))
    | Ok resp =>
      match Error (base resp) with
      | Some e => (c, tr, (Data resp, Some ("exchange error: " +:+ e)))
      | None => (c, tr, (Data resp, None))
      end
    end
  end.

(** ** More stand-ins, for the examples of the further properties *)

Module Fixtures.

(** No server answers. *)
Definition down : World :=
  {| now := 1540000000; roundTrip := λ _, Err "connection refused" |}.

(** A server whose answer cannot be read to the end. *)
Definition broken : World :=
  {| now := 1540000000;
     roundTrip := λ _, Ok {| StatusCode := 200; Status := "200 OK";
                             RespBody := Err "unexpected EOF" |} |}.

Definition answered : Response :=
  {| StatusCode := 200; Status := "200 OK"; RespBody := Ok "response body" |}.

Definition moved : Response :=
  {| StatusCode := 301; Status := "301 Moved Permanently"; RespBody := Ok "" |}.

Definition succeeded : responseBase := {| Errors := None |}.

Definition decode_UserID : Unmarshal UserID_Data :=
  λ body,
    if decide (body = "user 42") then
      Ok {| base := succeeded; Data := {| User_ID := "42" |} |}
    else if decide (body = "user 42 with an error") then
      Ok {| base := Sample.failed; Data := {| User_ID := "42" |} |}
    else Err "unexpected end of JSON input".

Definition decode_IssueApiToken : Unmarshal IssueApiToken_Data :=
  λ body,
    if decide (body = "token with an error") then
      Ok {| base := Sample.failed;
            Data := {| Data_IssueApiToken := "0201" |} |}
    else Err "unexpected end of JSON input".

Definition decode_Order : Unmarshal Order :=
  λ body,
    if decide (body = "order 7")
    then Ok {| base := succeeded; Data := Sample.order_7 |}
    else Sample.decode_Order body.

Definition decode_Accounts : Unmarshal (slice Account) :=
  λ body,
    if decide (body = "accounts")
    then Ok {| base := succeeded; Data := Some [Sample.btc] |}
    else Sample.decode_Accounts body.

Definition eth : Ticker :=
  {| Market := "BTCETH"; Last := {| coefficient := 3; exponent := -2 |};
     ChangeLast := Decimal_zero |}.

Definition decode_Tickers : Unmarshal (slice Ticker) :=
  λ body,
    if decide (body = "tickers")
    then Ok {| base := succeeded; Data := Some [eth] |}
    else Err "unexpected end of JSON input".

(** A server that answers 200 with the given body. *)
Definition serving (body : string) : World := Sample.server 200 "200 OK" body.

(** The mock of the tests behind the interface with a flag, which it
    does not look at. *)
Definition flagged_mock `{Externals} : flaggedCore mockCore :=
  λ w authenticated r, mockCore_do w r.

Definition deal_1 : Deal.MarketDeal :=
  {| Deal.ID := 1; Deal.Market := "BTCETH"; Deal.Time := 0%N;
     Deal.Amount := {| coefficient := 5; exponent := -1 |};
     Deal.Price := {| coefficient := 3; exponent := -2 |};
     Deal.Type_ := "bid" |}.

Definition decode_Deals : Unmarshal (slice Deal.MarketDeal) :=
  λ body,
    if decide (body = "deals with an error")
    then Ok {| base := Sample.failed; Data := Some [deal_1] |}
    else Err "unexpected end of JSON input".

Definition decode_Markets : Unmarshal (slice Status.MarketStatus) :=
  λ body, Err "unexpected end of JSON input".

(** Libraries as in [Sample], but no request can be serialized. *)
Definition unserializable : Externals := {|
  Macaroon := option (list string);
  nil_Macaroon := None;
  json_Marshal := λ _, Err "json: unsupported type: chan int";
  url_Parse := @url_Parse Sample.externals;
  auth_DecodeMacaroon := @auth_DecodeMacaroon Sample.externals;
  auth_AddNonce := @auth_AddNonce Sample.externals;
  auth_AddCurrentTime := @auth_AddCurrentTime Sample.externals;
  auth_EncodeMacaroon := @auth_EncodeMacaroon Sample.externals;
|}.

End Fixtures.

(** ** Properties of the error envelope formatter *)

Section ErrorFormatter.

Lemma append_cons (x : Ascii.ascii) (a b : string) :
  String x a +:+ b = String x (a +:+ b).
Proof. reflexivity. Qed.

Lemma append_empty_r (a : string) : a +:+ "" = a.
Proof.
  induction a as [|x a IH]; [done |]. by rewrite append_cons, IH.
Qed.

Lemma append_assoc (a b c : string) : (a +:+ b) +:+ c = a +:+ (b +:+ c).
Proof.
  induction a as [|x a IH]; [done |]. by rewrite !append_cons, IH.
Qed.

(** Past the first iteration every location is preceded by a comma. *)
Lemma range_Locations_tail (ls : list responseErrorLocation) :
  ∀ i msg, 0 < i →
    range_Locations i ls msg =
    msg +:+ fold_right (λ l acc, ", " +:+ ErrorSpec.position l +:+ acc) "" ls.
Proof.
  induction ls as [|l ls IH]; intros i msg Hi; cbn [range_Locations fold_right].
  - by rewrite append_empty_r.
  - rewrite decide_True by done.
    rewrite IH by lia. unfold ErrorSpec.position.
    by rewrite !append_assoc.
Qed.

Lemma concat_cons_fold (sep x : string) (xs : list string) :
  String.concat sep (x :: xs) =
  x +:+ fold_right (λ y acc, sep +:+ y +:+ acc) "" xs.
Proof.
  revert x; induction xs as [|y xs IH]; intros x.
  - simpl. by rewrite append_empty_r.
  - cbn [fold_right]. rewrite <- IH. reflexivity.
Qed.

Lemma range_Locations_concat (l : responseErrorLocation)
    (ls : list responseErrorLocation) (msg : string) :
  range_Locations 0 (l :: ls) msg =
  msg +:+ String.concat ", " (ErrorSpec.position <$> (l :: ls)).
Proof.
  cbn [range_Locations]. rewrite decide_False by lia.
  rewrite range_Locations_tail by lia.
  rewrite fmap_cons, concat_cons_fold, append_assoc. f_equal. f_equal.
  induction ls as [|l' ls IH]; [done |].
  rewrite fmap_cons. cbn [fold_right]. by rewrite IH.
Qed.

End ErrorFormatter.

(** C2: the error envelope formatter [responseBase.Error] agrees, on every
    list of response errors, with the reference definition: no error for an
    empty or absent list; the text alone for one error without location;
    ["<text>, location: <line>:<column>"] for one location;
    ["<text>, locations: <l1>:<c1>, <l2>:<c2>, ..."] for several, in order;
    and ["<N> errors occurred, first one is: "] before the rendering of the
    first error when there are [N > 1] errors. *)
Theorem Error_refines_spec (errors : slice responseError) :
  Error {| Errors := errors |} = ErrorSpec.extractError errors.
Proof.
  destruct errors as [[|e rest]|]; try reflexivity.
  unfold Error, ErrorSpec.extractError, len. cbn [elems Errors].
  assert (Hfmt :
    match elems (Locations e) with
    | [] => Message e
    | [l] => Message e +:+ ", location: " +:+ itoa (Line l) +:+ ":"
                       +:+ itoa (Column l)
    | ls => range_Locations 0 ls (Message e +:+ ", locations: ")
    end = ErrorSpec.format_one e).
  { unfold ErrorSpec.format_one.
    destruct (elems (Locations e)) as [|l [|l' ls]]; try reflexivity.
    rewrite range_Locations_concat. by rewrite append_assoc. }
  rewrite Hfmt. destruct rest as [|e' rest].
  - by rewrite decide_False by (simpl; lia).
  - by rewrite decide_True by (simpl length; lia).
Qed.

(** ** Properties of the transport *)

(** Membership in an explicit trace. *)
Ltac in_trace :=
  rewrite ?elem_of_cons, ?elem_of_nil in *;
  intuition (discriminate || congruence).

Section Transport.
Context `{Externals}.

Lemma exchange_EvHTTP w req t res req' :
  exchange w req = (t, res) → EvHTTP req' ∈ t → req' = req.
Proof.
  unfold exchange. intros Hx Hin.
  destruct (roundTrip w req) as [resp|e];
    [destruct (decide (StatusCode resp ≠ StatusOK))|];
    simplify_eq; in_trace.
Qed.

Lemma exchange_sent w req t res : exchange w req = (t, res) → sent t = [req].
Proof.
  unfold exchange. intros Hx.
  destruct (roundTrip w req) as [resp|e];
    [destruct (decide (StatusCode resp ≠ StatusOK))|];
    by simplify_eq.
Qed.

Lemma exchange_nonces w req t res : exchange w req = (t, res) → nonces t = [].
Proof.
  unfold exchange. intros Hx.
  destruct (roundTrip w req) as [resp|e];
    [destruct (decide (StatusCode resp ≠ StatusOK))|];
    by simplify_eq.
Qed.

Lemma exchange_handled w req resp t res :
  roundTrip w req = Ok resp → exchange w req = (t, res) → handled resp t res.
Proof.
  unfold exchange, handled. intros -> Hx.
  destruct (decide (StatusCode resp ≠ StatusOK)); simplify_eq; split;
    intros; try done; split; try done; in_trace.
Qed.


Lemma graphQLCore_do_unfold w r c :
  graphQLCore_do w r c =
  match json_Marshal r with
  | Err e => (c, [], Err ("failed to json.Marshal request: " +:+ e))
  | Ok reqJSON =>
    match url_Parse (url c) with
    | Err e => (c, [], Err ("failed to http.NewRequest: " +:+ e))
    | Ok u =>
      if decide (jwt c = "") then
        let c1 := nonce_incr c in
        match derive w c1 with
        | Err e => (c1, [EvAddNonce (macaroon c1) (nonce c1)], Err e)
        | Ok token =>
          let '(t, res) :=
            exchange w (Set_Header
                          (Set_Header (POST u reqJSON)
                             "Content-Type" "application/json")
                          "Authorization" ("Macaroon " +:+ token)) in
          (c1, EvAddNonce (macaroon c1) (nonce c1) :: t, res)
        end
      else
        let '(t, res) :=
          exchange w (Set_Header (POST u reqJSON)
                        "Authorization" ("Bearer " +:+ jwt c)) in
        (c, t, res)
    end
  end.
Proof.
  unfold graphQLCore_do, http_NewRequest, derive, exchange, POST.
  unfold bind, try, ret, fail, get, modify, emit, defer.
  destruct (json_Marshal r) as [reqJSON|e]; cbn; [|done].
  destruct (url_Parse (url c)) as [u|e]; cbn; [|done].
  destruct (decide (jwt c = "")) as [Hj|Hj]; cbn.
  - destruct (auth_AddNonce _ _) as [m|e]; cbn; [|done].
    destruct (auth_AddCurrentTime _ _) as [m2|e]; cbn; [|done].
    destruct (auth_EncodeMacaroon _) as [token|e]; cbn; [|done].
    destruct (roundTrip w _) as [resp|e]; cbn; [|done].
    destruct (decide (StatusCode resp ≠ StatusOK)); cbn; [done|].
    by destruct (RespBody resp).
  - destruct (roundTrip w _) as [resp|e]; cbn; [|done].
    destruct (decide (StatusCode resp ≠ StatusOK)); cbn; [done|].
    by destruct (RespBody resp).
Qed.

Lemma graphqlBackend_do_unfold w r c :
  graphqlBackend_do w r c =
  match json_Marshal r with
  | Err e => (c, [], Err ("failed to json.Marshal request: " +:+ e))
  | Ok reqJSON =>
    match url_Parse (backend_url c) with
    | Err e => (c, [], Err ("failed to http.NewRequest: " +:+ e))
    | Ok u =>
      let '(t, res) :=
        exchange w (Set_Header
                      (Set_Header (POST u reqJSON)
                         "Content-Type" "application/json")
                      "Authorization" ("Bearer " +:+ authToken c)) in
      (c, t, res)
    end
  end.
Proof.
  unfold graphqlBackend_do, http_NewRequest, exchange, POST.
  unfold bind, try, ret, fail, get, modify, emit, defer.
  destruct (json_Marshal r) as [reqJSON|e]; cbn; [|done].
  destruct (url_Parse (backend_url c)) as [u|e]; cbn; [|done].
  destruct (roundTrip w _) as [resp|e]; cbn; [|done].
  destruct (decide (StatusCode resp ≠ StatusOK)); cbn; [done|].
  by destruct (RespBody resp).
Qed.


End Transport.

(** C3: for every HTTP response that [do] receives, of the bearer
    transport and of the macaroon transport alike: if the status is not
    200 the call returns an error that carries the status text, and the
    body is not read; if the status is 200 the body is read to the end and
    returned unparsed, and the call fails only when reading it fails. *)
Theorem do_status_and_body `{Externals} (w : World) (r : request) (req : Request) (resp : Response) :
  roundTrip w req = Ok resp →
  (∀ c c' tr res,
     graphqlBackend_do w r c = (c', tr, res) → EvHTTP req ∈ tr →
     handled resp tr res) ∧
  (∀ c c' tr res,
     graphQLCore_do w r c = (c', tr, res) → EvHTTP req ∈ tr →
     handled resp tr res).
Proof.
  intros Hrt. split; intros c c' tr res Hdo Hin.
  - rewrite graphqlBackend_do_unfold in Hdo.
    destruct (json_Marshal r) as [reqJSON|e]; [|simplify_eq; in_trace].
    destruct (url_Parse (backend_url c)) as [u|e]; [|simplify_eq; in_trace].
    destruct (exchange w _) as [t res'] eqn:Hx. simplify_eq.
    rewrite (exchange_EvHTTP _ _ _ _ _ Hx Hin) in Hrt.
    by eapply exchange_handled.
  - rewrite graphQLCore_do_unfold in Hdo.
    destruct (json_Marshal r) as [reqJSON|e]; [|simplify_eq; in_trace].
    destruct (url_Parse (url c)) as [u|e]; [|simplify_eq; in_trace].
    destruct (decide (jwt c = "")) as [Hj|Hj].
    + cbn zeta in Hdo.
      destruct (derive w _) as [token|e]; [|simplify_eq; in_trace].
      destruct (exchange w _) as [t res'] eqn:Hx. simplify_eq.
      apply elem_of_cons in Hin as [|Hin]; [done|].
      rewrite (exchange_EvHTTP _ _ _ _ _ Hx Hin) in Hrt.
      destruct (exchange_handled _ _ _ _ _ Hrt Hx) as [Hne Heq].
      split; intros Hs; [destruct (Hne Hs)|destruct (Heq Hs)]; split;
        try done; in_trace.
    + destruct (exchange w _) as [t res'] eqn:Hx. simplify_eq.
      rewrite (exchange_EvHTTP _ _ _ _ _ Hx Hin) in Hrt.
      by eapply exchange_handled.
Qed.


(** ** Properties of the nonce counter *)

Section Nonces.
Context `{Externals}.

Lemma int64_incr_succ (z : Z) :
  is_int64 z → z < MaxInt64 → int64_incr z = z + 1.
Proof.
  unfold is_int64, int64_incr, int64_wrap, MaxInt64, MinInt64. intros Hz Hlt.
  rewrite Z.mod_small; lia.
Qed.

Lemma int64_incr_neq (z : Z) : int64_incr z ≠ z.
Proof.
  unfold int64_incr, int64_wrap. intros Heq.
  pose proof (Z.div_mod (z + 1 + 2 ^ 63) (2 ^ 64) ltac:(lia)) as Hdm.
  lia.
Qed.

Lemma int64_incr_range (z : Z) : is_int64 (int64_incr z).
Proof.
  unfold is_int64, int64_incr, int64_wrap, MaxInt64, MinInt64.
  pose proof (Z.mod_pos_bound (z + 1 + 2 ^ 63) (2 ^ 64) ltac:(lia)). lia.
Qed.

Lemma nonces_app (t1 t2 : list event) : nonces (t1 ++ t2) = nonces t1 ++ nonces t2.
Proof. apply omap_app. Qed.

Lemma nonces_AddNonce (m : Macaroon) (n : Z) (t : list event) :
  nonces (EvAddNonce m n :: t) = n :: nonces t.
Proof. reflexivity. Qed.

(** One call either leaves the instance alone and hands no nonce out, or
    (only without a jwt) increments the counter and hands out exactly the
    incremented value. *)
Lemma do_step w r c c' tr res :
  graphQLCore_do w r c = (c', tr, res) →
  (c' = c ∧ nonces tr = []) ∨
  (jwt c = "" ∧ c' = nonce_incr c ∧ nonces tr = [int64_incr (nonce c)]).
Proof.
  rewrite graphQLCore_do_unfold. intros Hdo.
  destruct (json_Marshal r) as [reqJSON|e]; [|left; by simplify_eq].
  destruct (url_Parse (url c)) as [u|e]; [|left; by simplify_eq].
  destruct (decide (jwt c = "")) as [Hj|Hj].
  - right. cbn zeta in Hdo.
    destruct (derive w _) as [token|e]; [|by simplify_eq].
    destruct (exchange w _) as [t res'] eqn:Hx. simplify_eq.
    split_and!; [done..|].
    by rewrite nonces_AddNonce, (exchange_nonces _ _ _ _ Hx).
  - left. destruct (exchange w _) as [t res'] eqn:Hx. simplify_eq.
    split; [done|]. by rewrite (exchange_nonces _ _ _ _ Hx).
Qed.

(** A call without a jwt whose request can be built does take the
    incrementing branch. *)
Lemma do_step_reached w r c reqJSON u :
  jwt c = "" → json_Marshal r = Ok reqJSON → url_Parse (url c) = Ok u →
  (graphQLCore_do w r c).1.1 = nonce_incr c ∧
  nonces (graphQLCore_do w r c).1.2 = [int64_incr (nonce c)].
Proof.
  intros Hj Hm Hu. rewrite graphQLCore_do_unfold, Hm, Hu.
  rewrite decide_True by done. cbn zeta.
  destruct (derive w _) as [token|e]; [|done].
  destruct (exchange w _) as [t res'] eqn:Hx. cbn [fst snd].
  by rewrite nonces_AddNonce, (exchange_nonces _ _ _ _ Hx).
Qed.

(** The invariant of a sequence of calls that stays below [MaxInt64]. *)
Lemma calls_nonces (l : list (World * request)) :
  ∀ c c' tr,
    jwt c = "" → is_int64 (nonce c) →
    nonce c + Z.of_nat (length l) <= MaxInt64 →
    calls l c = (c', tr) →
    StronglySorted Z.lt (nonces tr) ∧
    Forall (λ n, nonce c < n <= nonce c') (nonces tr) ∧
    nonce c <= nonce c'.
Proof.
  induction l as [|[w r] l IH]; intros c c' tr Hj Hc Hb Hcalls.
  - simplify_eq/=. split_and!; [constructor | constructor | lia].
  - cbn [calls] in Hcalls.
    destruct (graphQLCore_do w r c) as [[c1 t1] res] eqn:Hdo.
    destruct (calls l c1) as [c2 t2] eqn:Hrest. simplify_eq.
    rewrite nonces_app. cbn [length] in Hb.
    destruct (do_step _ _ _ _ _ _ Hdo) as [[-> ->]|(_ & -> & ->)].
    + apply (IH c c' t2); [done | done | lia | done].
    + assert (Hn : int64_incr (nonce c) = nonce c + 1)
        by (apply int64_incr_succ; [done | lia]).
      destruct (IH (nonce_incr c) c' t2) as (Hs & Hf & Hle);
        [done | apply int64_incr_range | cbn; lia | done |].
      cbn [nonce nonce_incr] in Hf, Hle. rewrite Hn in *.
      split_and!.
      * cbn. constructor; [done|].
        eapply Forall_impl; [exact Hf|]. cbn. lia.
      * cbn. constructor; [lia|].
        eapply Forall_impl; [exact Hf|]. cbn. lia.
      * lia.
Qed.

End Nonces.

(** C1 (amended): on one [graphQLCore] instance without a jwt, as long as
    the counter stays within [int64] (the nonce it starts from plus the
    number of calls does not exceed [2^63 - 1]), the nonces handed to
    [auth.AddNonce] over any sequence of calls are strictly increasing, so
    none is used twice; and each call that gets as far as the credentials
    (its request could be serialized and built) increments the counter by
    exactly one and attaches the incremented value. *)
Theorem nonces_strictly_increasing `{Externals}
    (l : list (World * request)) (c : graphQLCore) :
  jwt c = "" → is_int64 (nonce c) →
  nonce c + Z.of_nat (length l) <= MaxInt64 →
  StronglySorted Z.lt (nonces (calls l c).2) ∧
  NoDup (nonces (calls l c).2) ∧
  (∀ w r reqJSON u,
     nonce c < MaxInt64 →
     json_Marshal r = Ok reqJSON → url_Parse (url c) = Ok u →
     nonce (graphQLCore_do w r c).1.1 = nonce c + 1 ∧
     nonces (graphQLCore_do w r c).1.2 = [nonce c + 1]).
Proof.
  intros Hj Hc Hb. destruct (calls l c) as [c' tr] eqn:Hcalls.
  destruct (calls_nonces l c c' tr Hj Hc Hb Hcalls) as (Hs & _ & _).
  cbn [snd]. split_and!; [done | |].
  - generalize dependent (nonces tr). clear. intros ns Hs.
    induction Hs as [|n ns Hs IH Hall]; constructor; [|done].
    intros Hin. rewrite Forall_forall in Hall. specialize (Hall n Hin). lia.
  - intros w r reqJSON u Hlt Hm Hu.
    destruct (do_step_reached w r c reqJSON u Hj Hm Hu) as [-> ->].
    cbn. by rewrite int64_incr_succ.
Qed.

(** C4: without a jwt, when the request could be built and one of the
    steps that derive the token fails (adding the nonce caveat, adding the
    time caveat, encoding the macaroon), [do] returns an error, sends
    nothing, and leaves the counter incremented: the value is not given
    back, and the next call that reaches the credentials uses the value
    after it. *)
Theorem failed_derivation_keeps_increment `{Externals}
    (w : World) (r : request) (c : graphQLCore) (reqJSON : bytes) (u : string) :
  jwt c = "" → json_Marshal r = Ok reqJSON → url_Parse (url c) = Ok u →
  ((∃ e, auth_AddNonce (macaroon c) (int64_incr (nonce c)) = Err e) ∨
   (∃ m e, auth_AddNonce (macaroon c) (int64_incr (nonce c)) = Ok m ∧
           auth_AddCurrentTime (now w) m = Err e) ∨
   (∃ m m' e, auth_AddNonce (macaroon c) (int64_incr (nonce c)) = Ok m ∧
              auth_AddCurrentTime (now w) m = Ok m' ∧
              auth_EncodeMacaroon m' = Err e)) →
  let '(c', tr, res) := graphQLCore_do w r c in
  (∃ msg, res = Err msg) ∧
  sent tr = [] ∧
  nonces tr = [int64_incr (nonce c)] ∧
  nonce c' = int64_incr (nonce c) ∧
  nonce c' ≠ nonce c ∧
  (∀ w2 r2 n, n ∈ nonces (graphQLCore_do w2 r2 c').1.2 →
              n = int64_incr (nonce c') ∧ n ≠ nonce c').
Proof.
  intros Hj Hm Hu Hfail.
  rewrite graphQLCore_do_unfold, Hm, Hu, decide_True by done. cbn zeta.
  assert (Hd : ∃ msg, derive w (nonce_incr c) = Err msg).
  { unfold derive. cbn [macaroon nonce nonce_incr].
    destruct Hfail as [[e ->]|[(m & e & -> & ->)|(m & m' & e & -> & -> & ->)]];
      eauto. }
  destruct Hd as [msg ->].
  split_and!; [by eexists | done | done | done | apply int64_incr_neq |].
  intros w2 r2 n Hin.
  destruct (graphQLCore_do w2 r2 (nonce_incr c)) as [[c2 t2] res2] eqn:Hdo2.
  destruct (do_step _ _ _ _ _ _ Hdo2) as [[_ Hn]|(_ & _ & Hn)];
    cbn [fst snd] in Hin; rewrite Hn in Hin.
  - by apply elem_of_nil in Hin.
  - apply list_elem_of_singleton in Hin as ->.
    split; [done | apply int64_incr_neq].
Qed.

(** ** Properties of the credentials on the wire *)

Section Headers.
Context `{Externals}.

Lemma derive_Ok w c token :
  derive w c = Ok token →
  ∃ m m', auth_AddNonce (macaroon c) (nonce c) = Ok m ∧
          auth_AddCurrentTime (now w) m = Ok m' ∧
          auth_EncodeMacaroon m' = Ok token.
Proof.
  unfold derive. intros Hd.
  destruct (auth_AddNonce _ _) as [m|e] eqn:Hn; [|done].
  destruct (auth_AddCurrentTime _ _) as [m'|e] eqn:Ht; [|done].
  destruct (auth_EncodeMacaroon _) as [token'|e] eqn:He; [|done].
  simplify_eq. by exists m, m'.
Qed.

Lemma Set_Header_lookup (httpReq : Request) (key value : string) :
  Header (Set_Header httpReq key value) !! key = Some [value].
Proof. cbn. unfold Header_Set. apply lookup_insert_eq. Qed.

Lemma Set_Header_lookup_ne (httpReq : Request) (key key' value : string) :
  key ≠ key' →
  Header (Set_Header httpReq key value) !! key' = Header httpReq !! key'.
Proof. intros Hne. cbn. unfold Header_Set. by apply lookup_insert_ne. Qed.

(** The unfolded form of the manager and of the transport with a flag. *)
Lemma authHeader_unfold w (t : PerCall.Transport) :
  PerCall.authHeader w t =
  match PerCall.credential t with
  | PerCall.BearerToken token => (t, [], Ok ("Bearer " +:+ token))
  | PerCall.CapabilityToken root n =>
    let t1 := {| PerCall.endpoint := PerCall.endpoint t;
                 PerCall.credential := PerCall.CapabilityToken root (n + 1) |} in
    (t1, [EvAddNonce root (n + 1)],
     match auth_AddNonce root (n + 1) with
     | Err e => Err ("CredentialDerivationError: " +:+ e)
     | Ok m =>
       match auth_AddCurrentTime (now w) m with
       | Err e => Err ("CredentialDerivationError: " +:+ e)
       | Ok m' =>
         match auth_EncodeMacaroon m' with
         | Err e => Err ("CredentialDerivationError: " +:+ e)
         | Ok serialized => Ok ("Macaroon " +:+ serialized)
         end
       end
     end)
  end.
Proof.
  unfold PerCall.authHeader, bind, try, ret, fail, get, modify, emit. cbn.
  destruct (PerCall.credential t) as [token|root n]; [done|]. cbn.
  destruct (auth_AddNonce _ _) as [m|e]; cbn; [|done].
  destruct (auth_AddCurrentTime _ _) as [m'|e]; cbn; [|done].
  by destruct (auth_EncodeMacaroon _) as [s|e].
Qed.

Lemma exchange_flag_EvHTTP w req t res req' :
  exchange_flag w req = (t, res) → EvHTTP req' ∈ t → req' = req.
Proof.
  unfold exchange_flag. intros Hx Hin.
  destruct (roundTrip w req) as [resp|e];
    [destruct (decide (StatusCode resp ≠ StatusOK))|];
    simplify_eq; in_trace.
Qed.

Lemma exchange_flag_nonces w req t res :
  exchange_flag w req = (t, res) → nonces t = [].
Proof.
  unfold exchange_flag. intros Hx.
  destruct (roundTrip w req) as [resp|e];
    [destruct (decide (StatusCode resp ≠ StatusOK))|];
    by simplify_eq.
Qed.

Lemma authHeader_sends_nothing w (t t1 : PerCall.Transport) tr1 res req :
  PerCall.authHeader w t = (t1, tr1, res) → EvHTTP req ∉ tr1.
Proof.
  rewrite authHeader_unfold. intros Hah Hin.
  destruct (PerCall.credential t); cbn zeta in Hah; simplify_eq; in_trace.
Qed.

#[local] Arguments PerCall.authHeader : simpl never.

Lemma PerCall_do_unfold w authenticated r (t : PerCall.Transport) :
  PerCall.do w authenticated r t =
  match json_Marshal r with
  | Err e => (t, [], Err ("EncodingError: " +:+ e))
  | Ok reqJSON =>
    match url_Parse (PerCall.endpoint t) with
    | Err e => (t, [], Err ("NetworkError: " +:+ e))
    | Ok u =>
      let httpReq :=
        Set_Header (POST u reqJSON) "Content-Type" "application/json" in
      if authenticated || PerCall.always_authenticates (PerCall.credential t)
      then
        match PerCall.authHeader w t with
        | (t1, tr1, Err e) => (t1, tr1, Err e)
        | (t1, tr1, Ok h) =>
          let '(tr2, res) :=
            exchange_flag w (Set_Header httpReq "Authorization" h) in
          (t1, tr1 ++ tr2, res)
        end
      else
        let '(tr2, res) := exchange_flag w httpReq in (t, tr2, res)
    end
  end.
Proof.
  unfold PerCall.do, http_NewRequest, exchange_flag, POST.
  unfold bind, try, ret, fail, get, emit.
  destruct (json_Marshal r) as [reqJSON|e]; cbn; [|done].
  destruct (url_Parse (PerCall.endpoint t)) as [u|e]; cbn; [|done].
  destruct (authenticated || _); cbn.
  - destruct (PerCall.authHeader w t) as [[t1 tr1] [h|e]]; cbn; [|done].
    destruct (roundTrip w _) as [resp|e]; cbn; [|by rewrite app_nil_r].
    destruct (decide (StatusCode resp ≠ StatusOK)); cbn;
      [by rewrite app_nil_r|].
    destruct (RespBody resp); cbn; by rewrite app_nil_r.
  - destruct (roundTrip w _) as [resp|e]; cbn; [|done].
    destruct (decide (StatusCode resp ≠ StatusOK)); cbn; [done|].
    by destruct (RespBody resp).
Qed.

End Headers.

(** C5: every request the macaroon transport sends without a jwt carries
    as [Authorization] exactly ["Macaroon "] followed by the encoding of
    the macaroon that results from adding to the root macaroon first the
    caveat of the incremented nonce and then the caveat of the current
    time; with a jwt it carries exactly ["Bearer "] followed by the jwt;
    and every request of the bearer transport carries exactly ["Bearer "]
    followed by the token. *)
Theorem authorization_header `{Externals} (w : World) (r : request)
    (req : Request) :
  (∀ c c' tr res,
     graphQLCore_do w r c = (c', tr, res) → EvHTTP req ∈ tr →
     if decide (jwt c = "") then
       ∃ m m' token,
         auth_AddNonce (macaroon c) (int64_incr (nonce c)) = Ok m ∧
         auth_AddCurrentTime (now w) m = Ok m' ∧
         auth_EncodeMacaroon m' = Ok token ∧
         Header req !! "Authorization" = Some ["Macaroon " +:+ token]
     else Header req !! "Authorization" = Some ["Bearer " +:+ jwt c]) ∧
  (∀ c c' tr res,
     graphqlBackend_do w r c = (c', tr, res) → EvHTTP req ∈ tr →
     Header req !! "Authorization" = Some ["Bearer " +:+ authToken c]).
Proof.
  split; intros c c' tr res Hdo Hin.
  - rewrite graphQLCore_do_unfold in Hdo.
    destruct (json_Marshal r) as [reqJSON|e]; [|simplify_eq; in_trace].
    destruct (url_Parse (url c)) as [u|e]; [|simplify_eq; in_trace].
    destruct (decide (jwt c = "")) as [Hj|Hj].
    + cbn zeta in Hdo.
      destruct (derive w _) as [token|e] eqn:Hd; [|simplify_eq; in_trace].
      destruct (exchange w _) as [t res'] eqn:Hx. simplify_eq.
      apply elem_of_cons in Hin as [|Hin]; [done|].
      rewrite (exchange_EvHTTP _ _ _ _ _ Hx Hin).
      destruct (derive_Ok _ _ _ Hd) as (m & m' & Hn & Ht & He).
      exists m, m', token. split_and!; [done..|].
      apply Set_Header_lookup.
    + destruct (exchange w _) as [t res'] eqn:Hx. simplify_eq.
      rewrite (exchange_EvHTTP _ _ _ _ _ Hx Hin).
      apply Set_Header_lookup.
  - rewrite graphqlBackend_do_unfold in Hdo.
    destruct (json_Marshal r) as [reqJSON|e]; [|simplify_eq; in_trace].
    destruct (url_Parse (backend_url c)) as [u|e]; [|simplify_eq; in_trace].
    destruct (exchange w _) as [t res'] eqn:Hx. simplify_eq.
    rewrite (exchange_EvHTTP _ _ _ _ _ Hx Hin).
    apply Set_Header_lookup.
Qed.

(** C6: in the transport with a flag, for every request that is sent: when
    the caller asks for an unauthenticated call, a capability
    configuration sends no [Authorization] header and leaves the
    credential, nonce included, as it was, and a bearer configuration
    sends its default ["Bearer " + token]; when the caller asks for
    authentication, the header value is obtained from [authHeader] in this
    very call and set as [Authorization]. *)
Theorem credential_per_call `{Externals} (w : World) (authenticated : bool)
    (r : request) (t t' : PerCall.Transport) (tr : list event)
    (res : result bytes) (req : Request) :
  PerCall.do w authenticated r t = (t', tr, res) → EvHTTP req ∈ tr →
  if authenticated then
    ∃ h tr1, PerCall.authHeader w t = (t', tr1, Ok h) ∧
             Header req !! "Authorization" = Some [h]
  else
    match PerCall.credential t with
    | PerCall.CapabilityToken _ _ =>
      Header req !! "Authorization" = None ∧ t' = t ∧ nonces tr = []
    | PerCall.BearerToken token =>
      Header req !! "Authorization" = Some ["Bearer " +:+ token] ∧ t' = t
    end.
Proof.
  rewrite PerCall_do_unfold. intros Hdo Hin.
  destruct (json_Marshal r) as [reqJSON|e]; [|simplify_eq; in_trace].
  destruct (url_Parse (PerCall.endpoint t)) as [u|e]; [|simplify_eq; in_trace].
  cbn zeta in Hdo. destruct authenticated; cbn [orb] in Hdo.
  - destruct (PerCall.authHeader w t) as [[t1 tr1] [h|e]] eqn:Hah.
    + destruct (exchange_flag w _) as [tr2 res'] eqn:Hx. simplify_eq.
      exists h, tr1. split; [done|].
      assert (Hin2 : EvHTTP req ∈ tr2).
      { apply elem_of_app in Hin as [Hin|Hin]; [|done].
        by destruct (authHeader_sends_nothing _ _ _ _ _ req Hah). }
      rewrite (exchange_flag_EvHTTP _ _ _ _ _ Hx Hin2).
      apply Set_Header_lookup.
    + simplify_eq. by destruct (authHeader_sends_nothing _ _ _ _ _ req Hah).
  - destruct (PerCall.credential t) as [token|root n] eqn:Hcred;
      cbn [PerCall.always_authenticates] in Hdo.
    + assert (Hah : PerCall.authHeader w t = (t, [], Ok ("Bearer " +:+ token)))
        by (by rewrite authHeader_unfold, Hcred).
      rewrite Hah in Hdo.
      destruct (exchange_flag w _) as [tr2 res'] eqn:Hx. simplify_eq.
      rewrite (exchange_flag_EvHTTP _ _ _ _ _ Hx Hin).
      split; [apply Set_Header_lookup | done].
    + destruct (exchange_flag w _) as [tr2 res'] eqn:Hx. simplify_eq.
      rewrite (exchange_flag_EvHTTP _ _ _ _ _ Hx Hin).
      split_and!; [| done | by eapply exchange_flag_nonces].
      by rewrite Set_Header_lookup_ne.
Qed.

(** ** Properties of the client *)

(** C8: for every non-empty macaroon string that [auth.DecodeMacaroon]
    rejects, [NewClient] returns the decoding error and the nil client:
    no client is built at all. *)
Theorem NewClient_rejects_malformed `{Externals} (url macaroon jwt e : string) :
  macaroon ≠ "" → auth_DecodeMacaroon macaroon = Err e →
  NewClient url macaroon jwt = (None, Some e).
Proof.
  intros Hne Hdec. unfold NewClient. cbn zeta.
  by rewrite decide_True, Hdec.
Qed.

Lemma Error_of_errors (rb : responseBase) :
  0 < len (Errors rb) → ∃ msg, Error rb = Some msg.
Proof.
  unfold Error, len. destruct (elems (Errors rb)) as [|e rest]; cbn [length].
  - lia.
  - intros _. by eexists.
Qed.

(** C9 (amended): when the response decodes to a data value together with
    a non-empty list of errors, the operations [Accounts], [IssueApiToken],
    [Markets] and [Deals] return the exchange error and, next to it, the
    decoded data as they are; this is not so for every operation: [Order]
    returns the zero [Order{}] with the error. *)
Theorem partial_data_on_error `{Externals} `{!core C} `{!flaggedCore F}
    {UA : Unmarshal (slice Account)} {UI : Unmarshal IssueApiToken_Data}
    {UM : Unmarshal (slice Status.MarketStatus)}
    {UD : Unmarshal (slice Deal.MarketDeal)} {UO : Unmarshal Order}
    (w : World) (c : Client C) (core' : C) (f : Client F) (flagged' : F)
    (tr : list event) (respJSON : bytes) :
  (∀ assets (resp : response (slice Account)),
     do w {| Query := Accounts_Query; Variables := AccountsRequest assets |}
        (client_core c) = (core', tr, Ok respJSON) →
     json_Unmarshal respJSON = Ok resp →
     0 < len (Errors (base resp)) →
     ∃ msg, Error (base resp) = Some msg ∧
            Accounts w assets c =
            ({| client_core := core' |}, tr,
             (Data resp, Some ("exchange error: " +:+ msg)))) ∧
  (∀ (resp : response IssueApiToken_Data),
     do w {| Query := IssueApiToken_Query; Variables := no_variables |}
        (client_core c) = (core', tr, Ok respJSON) →
     json_Unmarshal respJSON = Ok resp →
     0 < len (Errors (base resp)) →
     ∃ msg, Error (base resp) = Some msg ∧
            IssueApiToken w c =
            ({| client_core := core' |}, tr,
             (Data_IssueApiToken (Data resp),
              Some ("exchange error: " +:+ msg)))) ∧
  (∀ markets period (resp : response (slice Status.MarketStatus)),
     do_with w false
        {| Query := Markets_Query;
           Variables := MarketsRequest markets period |}
        (client_core f) = (flagged', tr, Ok respJSON) →
     json_Unmarshal respJSON = Ok resp →
     0 < len (Errors (base resp)) →
     ∃ msg, Error (base resp) = Some msg ∧
            Markets w markets period f =
            ({| client_core := flagged' |}, tr,
             (Data resp, Some ("exchange error: " +:+ msg)))) ∧
  (∀ markets limit (resp : response (slice Deal.MarketDeal)),
     do_with w false
        {| Query := Deals_Query; Variables := DealsRequest markets limit |}
        (client_core f) = (flagged', tr, Ok respJSON) →
     json_Unmarshal respJSON = Ok resp →
     0 < len (Errors (base resp)) →
     ∃ msg, Error (base resp) = Some msg ∧
            Deals w markets limit f =
            ({| client_core := flagged' |}, tr,
             (Data resp, Some ("exchange error: " +:+ msg)))) ∧
  (∀ id (resp : response Order),
     do w {| Query := Order_Query; Variables := orderRequestVariables id |}
        (client_core c) = (core', tr, Ok respJSON) →
     json_Unmarshal respJSON = Ok resp →
     0 < len (Errors (base resp)) →
     ∃ msg, Error (base resp) = Some msg ∧
            Client_Order w id c =
            ({| client_core := core' |}, tr,
             (Order_zero, Some ("exchange error: " +:+ msg)))).
Proof.
  split_and!.
  - intros assets resp Hdo Hun Herr.
    destruct (Error_of_errors _ Herr) as [msg Hmsg]. exists msg.
    split; [done|]. unfold Accounts. cbn zeta. by rewrite Hdo, Hun, Hmsg.
  - intros resp Hdo Hun Herr.
    destruct (Error_of_errors _ Herr) as [msg Hmsg]. exists msg.
    split; [done|]. unfold IssueApiToken. cbn zeta.
    by rewrite Hdo, Hun, Hmsg.
  - intros markets period resp Hdo Hun Herr.
    destruct (Error_of_errors _ Herr) as [msg Hmsg]. exists msg.
    split; [done|]. unfold Markets. cbn zeta. by rewrite Hdo, Hun, Hmsg.
  - intros markets limit resp Hdo Hun Herr.
    destruct (Error_of_errors _ Herr) as [msg Hmsg]. exists msg.
    split; [done|]. unfold Deals. cbn zeta. by rewrite Hdo, Hun, Hmsg.
  - intros id resp Hdo Hun Herr.
    destruct (Error_of_errors _ Herr) as [msg Hmsg]. exists msg.
    split; [done|]. unfold Client_Order. cbn zeta. by rewrite Hdo, Hun, Hmsg.
Qed.

(** C10: for every client, whatever its core, [Tickers] called with no
    markets returns the error ["not empty markets expected"] and a nil
    list at once: the core is not called, so nothing is sent, there is no
    event, and the client, its nonce counter included, is as before. *)
Theorem Tickers_empty_markets `{Externals} `{!core C}
    `{!Unmarshal (slice Ticker)}
    (w : World) (markets : slice string) (c : Client C) :
  len markets = 0 →
  Tickers w markets c = (c, [], (None, Some "not empty markets expected")).
Proof. intros Hlen. unfold Tickers. by rewrite decide_True. Qed.

(** ** The content type of the requests *)

Section ContentType.
Context `{Externals}.

(** The bearer transport announces JSON on every request. *)
Lemma backend_content_type w r c c' tr res req :
  graphqlBackend_do w r c = (c', tr, res) → EvHTTP req ∈ tr →
  Header req !! "Content-Type" = Some ["application/json"].
Proof.
  rewrite graphqlBackend_do_unfold. intros Hdo Hin.
  destruct (json_Marshal r) as [reqJSON|e]; [|simplify_eq; in_trace].
  destruct (url_Parse (backend_url c)) as [u|e]; [|simplify_eq; in_trace].
  destruct (exchange w _) as [t res'] eqn:Hx. simplify_eq.
  rewrite (exchange_EvHTTP _ _ _ _ _ Hx Hin).
  rewrite Set_Header_lookup_ne by done. apply Set_Header_lookup.
Qed.

(** The macaroon transport does so in the macaroon branch and does not in
    the jwt branch, where the header is never set. *)
Lemma core_content_type w r c c' tr res req :
  graphQLCore_do w r c = (c', tr, res) → EvHTTP req ∈ tr →
  Header req !! "Content-Type" =
  if decide (jwt c = "") then Some ["application/json"] else None.
Proof.
  rewrite graphQLCore_do_unfold. intros Hdo Hin.
  destruct (json_Marshal r) as [reqJSON|e]; [|simplify_eq; in_trace].
  destruct (url_Parse (url c)) as [u|e]; [|simplify_eq; in_trace].
  destruct (decide (jwt c = "")) as [Hj|Hj].
  - cbn zeta in Hdo.
    destruct (derive w _) as [token|e]; [|simplify_eq; in_trace].
    destruct (exchange w _) as [t res'] eqn:Hx. simplify_eq.
    apply elem_of_cons in Hin as [|Hin]; [done|].
    rewrite (exchange_EvHTTP _ _ _ _ _ Hx Hin).
    rewrite Set_Header_lookup_ne by done. apply Set_Header_lookup.
  - destruct (exchange w _) as [t res'] eqn:Hx. simplify_eq.
    rewrite (exchange_EvHTTP _ _ _ _ _ Hx Hin).
    by rewrite Set_Header_lookup_ne.
Qed.

End ContentType.

(** ** The package on examples *)

Module Examples.

#[local] Existing Instance Sample.externals.

(** The cases of the tests of [responseBase.Error]. *)
Example Error_nil : Error {| Errors := None |} = None.
Proof. reflexivity. Qed.

Example Error_one_location :
  Error Sample.failed = Some "some error, location: 123:12".
Proof. reflexivity. Qed.

Example Error_three_errors :
  Error {| Errors := Some [
    {| Message := "some error";
       Locations := Some [ {| Line := 123; Column := 12 |};
                           {| Line := 567; Column := 13 |};
                           {| Line := 890; Column := 14 |} ] |};
    {| Message := "second error"; Locations := None |};
    {| Message := "third error"; Locations := None |} ] |}
  = Some ("3 errors occurred, first one is: "
          +:+ "some error, locations: 123:12, 567:13, 890:14").
Proof. reflexivity. Qed.

(** Two calls on a core whose counter is one below the largest [int64]:
    the second nonce is the smallest [int64], below the first. *)
Lemma nonce_wraps_around :
  nonces (calls [(Sample.up, Sample.query); (Sample.up, Sample.query)]
                Sample.core_last).2
  = [9223372036854775807; -9223372036854775808] ∧
  ¬ StronglySorted Z.lt
      (nonces (calls [(Sample.up, Sample.query); (Sample.up, Sample.query)]
                     Sample.core_last).2).
Proof.
  assert (Hn : nonces (calls [(Sample.up, Sample.query); (Sample.up, Sample.query)]
                Sample.core_last).2
  = [9223372036854775807; -9223372036854775808]) by reflexivity.
  split; [exact Hn|]. rewrite Hn. intros Hs.
  apply StronglySorted_inv in Hs as [_ Hall].
  apply Forall_inv in Hall. lia.
Qed.

(** Two calls on a fresh core use the nonces 1 and 2. *)
Lemma nonces_strictly_increasing_witness :
  jwt Sample.core0 = "" ∧ is_int64 (nonce Sample.core0) ∧
  nonces (calls [(Sample.up, Sample.query); (Sample.moved, Sample.query)]
                Sample.core0).2 = [1; 2] ∧
  StronglySorted Z.lt
    (nonces (calls [(Sample.up, Sample.query); (Sample.moved, Sample.query)]
                   Sample.core0).2).
Proof.
  assert (Hi : is_int64 (nonce Sample.core0))
    by (unfold is_int64, MinInt64, MaxInt64; cbn; lia).
  split_and!; [reflexivity | exact Hi | reflexivity |].
  refine (proj1 (nonces_strictly_increasing
            [(Sample.up, Sample.query); (Sample.moved, Sample.query)]
            Sample.core0 eq_refl Hi _)).
  unfold MaxInt64. cbn. lia.
Defined.


(** A 301 answer to the macaroon transport and a 200 answer to the bearer
    transport. *)
Lemma do_status_and_body_witness :
  graphQLCore_do Sample.moved Sample.query Sample.core0 =
    (nonce_incr Sample.core0,
     [EvAddNonce (Some ["root"]) 1; EvHTTP Sample.macaroon_request; EvClose],
     Err "unexpected response status: 301 Moved Permanently") ∧
  handled {| StatusCode := 301; Status := "301 Moved Permanently";
             RespBody := Ok "" |}
    [EvAddNonce (Some ["root"]) 1; EvHTTP Sample.macaroon_request; EvClose]
    (Err "unexpected response status: 301 Moved Permanently") ∧
  graphqlBackend_do Sample.up Sample.query Sample.bearer =
    (Sample.bearer, [EvHTTP Sample.bearer_request; EvReadAll; EvClose],
     Ok "response body") ∧
  handled {| StatusCode := 200; Status := "200 OK";
             RespBody := Ok "response body" |}
    [EvHTTP Sample.bearer_request; EvReadAll; EvClose]
    (Ok "response body").
Proof.
  assert (Hc : graphQLCore_do Sample.moved Sample.query Sample.core0 =
    (nonce_incr Sample.core0,
     [EvAddNonce (Some ["root"]) 1; EvHTTP Sample.macaroon_request; EvClose],
     Err "unexpected response status: 301 Moved Permanently"))
    by reflexivity.
  assert (Hb : graphqlBackend_do Sample.up Sample.query Sample.bearer =
    (Sample.bearer, [EvHTTP Sample.bearer_request; EvReadAll; EvClose],
     Ok "response body"))
    by reflexivity.
  split_and!; [exact Hc | | exact Hb |].
  - exact (proj2 (do_status_and_body Sample.moved Sample.query
                    Sample.macaroon_request _ eq_refl)
             _ _ _ _ Hc
             (list_elem_of_further _ _ _ (list_elem_of_here _ _))).
  - exact (proj1 (do_status_and_body Sample.up Sample.query
                    Sample.bearer_request _ eq_refl)
             _ _ _ _ Hb (list_elem_of_here _ _)).
Defined.

(** A core whose macaroon is nil fails to add the nonce caveat; its
    counter goes from 41 to 42 all the same. *)
Lemma failed_derivation_keeps_increment_witness :
  jwt Sample.core_nil = "" ∧
  auth_AddNonce (macaroon Sample.core_nil) (int64_incr (nonce Sample.core_nil))
    = Err "macaroon is nil" ∧
  let '(c', tr, res) := graphQLCore_do Sample.up Sample.query Sample.core_nil in
  (∃ msg, res = Err msg) ∧
  sent tr = [] ∧
  nonces tr = [int64_incr (nonce Sample.core_nil)] ∧
  nonce c' = int64_incr (nonce Sample.core_nil) ∧
  nonce c' ≠ nonce Sample.core_nil ∧
  (∀ w2 r2 n, n ∈ nonces (graphQLCore_do w2 r2 c').1.2 →
              n = int64_incr (nonce c') ∧ n ≠ nonce c').
Proof.
  split; [reflexivity|]. split; [reflexivity|].
  exact (failed_derivation_keeps_increment Sample.up Sample.query
           Sample.core_nil "{query}" "http://exchange/query"
           eq_refl eq_refl eq_refl
           (or_introl (ex_intro _ "macaroon is nil" eq_refl))).
Defined.

(** The header of the request a fresh macaroon core sends. *)
Lemma authorization_header_witness :
  graphQLCore_do Sample.up Sample.query Sample.core0 =
    (nonce_incr Sample.core0,
     [EvAddNonce (Some ["root"]) 1; EvHTTP Sample.macaroon_request;
      EvReadAll; EvClose],
     Ok "response body") ∧
  ∃ m m' token,
    auth_AddNonce (Some ["root"]) 1 = Ok m ∧
    auth_AddCurrentTime 1540000000 m = Ok m' ∧
    auth_EncodeMacaroon m' = Ok token ∧
    Header Sample.macaroon_request !! "Authorization"
      = Some ["Macaroon " +:+ token].
Proof.
  assert (Hc : graphQLCore_do Sample.up Sample.query Sample.core0 =
    (nonce_incr Sample.core0,
     [EvAddNonce (Some ["root"]) 1; EvHTTP Sample.macaroon_request;
      EvReadAll; EvClose],
     Ok "response body"))
    by reflexivity.
  split; [exact Hc|].
  exact (proj1 (authorization_header Sample.up Sample.query
                  Sample.macaroon_request)
           _ _ _ _ Hc (list_elem_of_further _ _ _ (list_elem_of_here _ _))).
Defined.

(** The same request through the transport with a flag, without and with
    authentication. *)
Lemma credential_per_call_witness :
  (PerCall.do Sample.up false Sample.query Sample.capability =
     (Sample.capability, [EvHTTP Sample.json_request; EvReadAll],
      Ok "response body") ∧
   Header Sample.json_request !! "Authorization" = None) ∧
  (PerCall.do Sample.up true Sample.query Sample.capability =
     ({| PerCall.endpoint := "http://exchange/query";
         PerCall.credential := PerCall.CapabilityToken (Some ["root"]) 1 |},
      [EvAddNonce (Some ["root"]) 1; EvHTTP Sample.macaroon_request;
       EvReadAll],
      Ok "response body") ∧
   ∃ h tr1,
     PerCall.authHeader Sample.up Sample.capability =
       ({| PerCall.endpoint := "http://exchange/query";
           PerCall.credential := PerCall.CapabilityToken (Some ["root"]) 1 |},
        tr1, Ok h) ∧
     Header Sample.macaroon_request !! "Authorization" = Some [h]).
Proof.
  assert (Hf : PerCall.do Sample.up false Sample.query Sample.capability =
     (Sample.capability, [EvHTTP Sample.json_request; EvReadAll],
      Ok "response body"))
    by reflexivity.
  assert (Ht : PerCall.do Sample.up true Sample.query Sample.capability =
     ({| PerCall.endpoint := "http://exchange/query";
         PerCall.credential := PerCall.CapabilityToken (Some ["root"]) 1 |},
      [EvAddNonce (Some ["root"]) 1; EvHTTP Sample.macaroon_request;
       EvReadAll],
      Ok "response body"))
    by reflexivity.
  split; split; [exact Hf | | exact Ht |].
  - exact (proj1 (credential_per_call Sample.up false Sample.query
                    _ _ _ _ Sample.json_request Hf (list_elem_of_here _ _))).
  - exact (credential_per_call Sample.up true Sample.query
             _ _ _ _ Sample.macaroon_request Ht
             (list_elem_of_further _ _ _ (list_elem_of_here _ _))).
Defined.

(** A call whose request cannot be built returns before the credentials:
    the counter stays and no nonce is used. *)
Example unbuildable_request_keeps_nonce :
  graphQLCore_do Sample.up Sample.query
    {| url := ":exchange"; macaroon := Some ["root"]; nonce := 5; jwt := "" |}
  = ({| url := ":exchange"; macaroon := Some ["root"]; nonce := 5; jwt := "" |},
     [], Err "failed to http.NewRequest: missing protocol scheme").
Proof. reflexivity. Qed.

(** C7 (the code at the failing input): a core built from a jwt alone sends
    its request with the [Authorization] header and without any
    [Content-Type] header, where the same call on a core with a macaroon,
    and on the bearer transport, announces [application/json]. *)
Theorem jwt_request_lacks_content_type :
  graphQLCore_do Sample.up Sample.query Sample.core_jwt =
    (Sample.core_jwt, [EvHTTP Sample.jwt_request; EvReadAll; EvClose],
     Ok "response body") ∧
  Header Sample.jwt_request !! "Content-Type" = None ∧
  Header_Get (Header Sample.jwt_request) "Content-Type" = "" ∧
  Header_Get (Header Sample.jwt_request) "Authorization" = "Bearer token" ∧
  Header_Get (Header Sample.macaroon_request) "Content-Type"
    = "application/json" ∧
  Header_Get (Header Sample.bearer_request) "Content-Type"
    = "application/json".
Proof. split_and!; reflexivity. Qed.

(** A macaroon that is not hexadecimal. *)
Lemma NewClient_rejects_malformed_witness :
  "zz" ≠ "" ∧
  auth_DecodeMacaroon "zz" = Err "encoding/hex: invalid byte" ∧
  NewClient "http://exchange/query" "zz" "" =
    (None, Some "encoding/hex: invalid byte").
Proof.
  assert (Hne : "zz" ≠ "") by discriminate.
  split_and!; [exact Hne | reflexivity |].
  exact (NewClient_rejects_malformed "http://exchange/query" "zz" ""
           "encoding/hex: invalid byte" Hne eq_refl).
Defined.

(** A well-formed macaroon does give a client, with the counter at 0. *)
Example NewClient_accepts :
  NewClient "http://exchange/query" "0201" "" =
    (Some {| client_core :=
               {| url := "http://exchange/query"; macaroon := Some ["0201"];
                  nonce := 0; jwt := "" |} |},
     None).
Proof. reflexivity. Qed.

(** [Order] on a response that decodes to an order and an error: the
    order is not returned. *)
Lemma Order_drops_decoded_data :
  Sample.decode_Order "order 7 with an error" =
    Ok {| base := Sample.failed; Data := Sample.order_7 |} ∧
  0 < len (Errors Sample.failed) ∧
  (Client_Order (Unmarshal0 := Sample.decode_Order) Sample.up 7
     (Sample.mock "order 7 with an error")).2 =
    (Order_zero, Some "exchange error: some error, location: 123:12") ∧
  Order_zero ≠ Sample.order_7.
Proof. split_and!; [reflexivity | reflexivity | reflexivity | discriminate]. Qed.

(** [Accounts] on a response that decodes to an account and an error, and
    [Deals] on one that decodes to a deal and an error. *)
Lemma partial_data_on_error_witness :
  0 < len (Errors Sample.failed) ∧
  (∃ msg,
     Error Sample.failed = Some msg ∧
     Accounts (Unmarshal0 := Sample.decode_Accounts) Sample.up None
       (Sample.mock "accounts with an error") =
     ({| client_core :=
           {| mock_request := {| Query := Accounts_Query;
                                 Variables := AccountsRequest None |};
              respJSON := "accounts with an error"; mock_error := None |} |},
      [], (Some [Sample.btc], Some ("exchange error: " +:+ msg)))) ∧
  (∃ msg,
     Error Sample.failed = Some msg ∧
     Deals (flaggedCore0 := Fixtures.flagged_mock)
       (Unmarshal0 := Fixtures.decode_Deals) Sample.up (Some ["BTCETH"]) 10
       (Sample.mock "deals with an error") =
     ({| client_core :=
           {| mock_request :=
                {| Query := Deals_Query;
                   Variables := DealsRequest (Some ["BTCETH"]) 10 |};
              respJSON := "deals with an error"; mock_error := None |} |},
      [], (Some [Fixtures.deal_1], Some ("exchange error: " +:+ msg)))).
Proof.
  assert (Hlen : 0 < len (Errors Sample.failed)) by reflexivity.
  split_and!; [exact Hlen | |].
  - exact (proj1 (partial_data_on_error
                    (flaggedCore0 := Fixtures.flagged_mock)
                    (UA := Sample.decode_Accounts)
                    (UI := Fixtures.decode_IssueApiToken)
                    (UM := Fixtures.decode_Markets)
                    (UD := Fixtures.decode_Deals)
                    (UO := Sample.decode_Order)
                    Sample.up (Sample.mock "accounts with an error") _
                    (Sample.mock "accounts with an error")
                    (client_core (Sample.mock "accounts with an error"))
                    [] "accounts with an error")
             None {| base := Sample.failed; Data := Some [Sample.btc] |}
             eq_refl eq_refl Hlen).
  - exact (proj1 (proj2 (proj2 (proj2 (partial_data_on_error
                    (flaggedCore0 := Fixtures.flagged_mock)
                    (UA := Sample.decode_Accounts)
                    (UI := Fixtures.decode_IssueApiToken)
                    (UM := Fixtures.decode_Markets)
                    (UD := Fixtures.decode_Deals)
                    (UO := Sample.decode_Order)
                    Sample.up (Sample.mock "deals with an error")
                    (client_core (Sample.mock "deals with an error"))
                    (Sample.mock "deals with an error") _
                    [] "deals with an error"))))
             (Some ["BTCETH"]) 10
             {| base := Sample.failed; Data := Some [Fixtures.deal_1] |}
             eq_refl eq_refl Hlen).
Defined.

(** [Tickers] with an empty list on a client with a macaroon core. *)
Lemma Tickers_empty_markets_witness :
  len (Some [] : slice string) = 0 ∧
  Tickers (Unmarshal0 := Sample.decode_Tickers) Sample.up (Some [])
    {| client_core := Sample.core0 |} =
  ({| client_core := Sample.core0 |}, [],
   (None, Some "not empty markets expected")).
Proof.
  split; [reflexivity|].
  exact (Tickers_empty_markets (Unmarshal0 := Sample.decode_Tickers)
           Sample.up (Some []) {| client_core := Sample.core0 |} eq_refl).
Defined.

(** With a market, the same client does call its core, and the counter
    moves. *)
Example Tickers_calls_core :
  nonce (client_core
           (Tickers (Unmarshal0 := Sample.decode_Tickers) Sample.up
              (Some ["BTCETH"]) {| client_core := Sample.core0 |}).1.1) = 1.
Proof. reflexivity. Qed.

End Examples.

(** ** Further properties of the transport *)

Section TransportPaths.
Context `{Externals}.

(** The three ways the part of [do] from the http call on ends. *)
Lemma exchange_inv w req t res :
  exchange w req = (t, res) →
  (∃ e, roundTrip w req = Err e ∧ t = [EvHTTP req] ∧
        res = Err ("failed to do http request: " +:+ e)) ∨
  (∃ resp, roundTrip w req = Ok resp ∧ StatusCode resp ≠ StatusOK ∧
           t = [EvHTTP req; EvClose] ∧
           res = Err ("unexpected response status: " +:+ Status resp)) ∨
  (∃ resp, roundTrip w req = Ok resp ∧ StatusCode resp = StatusOK ∧
           t = [EvHTTP req; EvReadAll; EvClose] ∧
           res = match RespBody resp with
                 | Ok body => Ok body
                 | Err e => Err ("failed to read response body: " +:+ e)
                 end).
Proof.
  unfold exchange. intros Hx.
  destruct (roundTrip w req) as [resp|e].
  - destruct (decide (StatusCode resp ≠ StatusOK)) as [Hs|Hs]; simplify_eq.
    + right; left. by exists resp.
    + right; right. exists resp. split_and!; try done.
      by destruct (decide (StatusCode resp = StatusOK)).
  - simplify_eq. left. by exists e.
Qed.

(** The paths through the bearer transport. *)
Lemma graphqlBackend_do_inv w r c c' tr res :
  graphqlBackend_do w r c = (c', tr, res) →
  c' = c ∧
  ((∃ e, json_Marshal r = Err e ∧ tr = [] ∧
         res = Err ("failed to json.Marshal request: " +:+ e)) ∨
   (∃ b e, json_Marshal r = Ok b ∧ url_Parse (backend_url c) = Err e ∧
           tr = [] ∧ res = Err ("failed to http.NewRequest: " +:+ e)) ∨
   (∃ b u, json_Marshal r = Ok b ∧ url_Parse (backend_url c) = Ok u ∧
           exchange w (Set_Header
                         (Set_Header (POST u b)
                            "Content-Type" "application/json")
                         "Authorization" ("Bearer " +:+ authToken c))
           = (tr, res))).
Proof.
  rewrite graphqlBackend_do_unfold. intros Hdo.
  destruct (json_Marshal r) as [b|e].
  - destruct (url_Parse (backend_url c)) as [u|e].
    + destruct (exchange w _) as [t res'] eqn:Hx. simplify_eq.
      split; [done|]. right; right. by exists b, u.
    + simplify_eq. split; [done|]. right; left. by exists b, e.
  - simplify_eq. split; [done|]. left. by exists e.
Qed.

(** The paths through the macaroon transport. *)
Lemma graphQLCore_do_inv w r c c' tr res :
  graphQLCore_do w r c = (c', tr, res) →
  (∃ e, json_Marshal r = Err e ∧ c' = c ∧ tr = [] ∧
        res = Err ("failed to json.Marshal request: " +:+ e)) ∨
  (∃ b e, json_Marshal r = Ok b ∧ url_Parse (url c) = Err e ∧
          c' = c ∧ tr = [] ∧
          res = Err ("failed to http.NewRequest: " +:+ e)) ∨
  (∃ b u, json_Marshal r = Ok b ∧ url_Parse (url c) = Ok u ∧
          jwt c ≠ "" ∧ c' = c ∧
          exchange w (Set_Header (POST u b)
                        "Authorization" ("Bearer " +:+ jwt c))
          = (tr, res)) ∨
  (∃ b u e, json_Marshal r = Ok b ∧ url_Parse (url c) = Ok u ∧
            jwt c = "" ∧ c' = nonce_incr c ∧
            derive w (nonce_incr c) = Err e ∧
            tr = [EvAddNonce (macaroon c) (int64_incr (nonce c))] ∧
            res = Err e) ∨
  (∃ b u token t, json_Marshal r = Ok b ∧ url_Parse (url c) = Ok u ∧
                  jwt c = "" ∧ c' = nonce_incr c ∧
                  derive w (nonce_incr c) = Ok token ∧
                  exchange w (Set_Header
                                (Set_Header (POST u b)
                                   "Content-Type" "application/json")
                                "Authorization" ("Macaroon " +:+ token))
                  = (t, res) ∧
                  tr = EvAddNonce (macaroon c) (int64_incr (nonce c)) :: t).
Proof.
  rewrite graphQLCore_do_unfold. intros Hdo.
  destruct (json_Marshal r) as [b|e];
    [|simplify_eq; left; by exists e].
  destruct (url_Parse (url c)) as [u|e];
    [|simplify_eq; right; left; by exists b, e].
  destruct (decide (jwt c = "")) as [Hj|Hj].
  - cbn zeta in Hdo. destruct (derive w _) as [token|e] eqn:Hd.
    + destruct (exchange w _) as [t res'] eqn:Hx. simplify_eq.
      do 4 right. by exists b, u, token, t.
    + simplify_eq. do 3 right; left. by exists b, u, e.
  - destruct (exchange w _) as [t res'] eqn:Hx. simplify_eq.
    do 2 right; left. by exists b, u.
Qed.

End TransportPaths.

(** Case analysis on a run of either transport. *)
Ltac backend_paths Hdo :=
  apply graphqlBackend_do_inv in Hdo as
    [-> [(?e & ?Hm & -> & ->)|[(?b & ?e & ?Hm & ?Hu & -> & ->)|
         (?b & ?u & ?Hm & ?Hu & ?Hx)]]].

Ltac core_paths Hdo :=
  apply graphQLCore_do_inv in Hdo as
    [(?e & ?Hm & -> & -> & ->)|[(?b & ?e & ?Hm & ?Hu & -> & -> & ->)|
     [(?b & ?u & ?Hm & ?Hu & ?Hj & -> & ?Hx)|
      [(?b & ?u & ?e & ?Hm & ?Hu & ?Hj & -> & ?Hd & -> & ->)|
       (?b & ?u & ?token & ?t & ?Hm & ?Hu & ?Hj & -> & ?Hd & ?Hx & ->)]]]].

(** A membership in an explicit trace, taken apart. *)
Ltac trace_inv :=
  repeat match goal with
  | H : _ ∈ [] |- _ => by apply elem_of_nil in H
  | H : _ ∈ _ :: _ |- _ =>
    apply elem_of_cons in H as [H|H]; [try discriminate H|]
  end.

Ltac exchange_paths Hx :=
  apply exchange_inv in Hx as
    [(?e & ?Hrt & -> & ->)|[(?resp & ?Hrt & ?Hst & -> & ->)|
                            (?resp & ?Hrt & ?Hst & -> & ->)]].

(** X1: a call of either transport hands at most one request to the
    network, and it returns a body only after having sent exactly one:
    there is no retry and no answer without a request. *)
Theorem do_single_attempt `{Externals} (w : World) (r : request) :
  (∀ c c' tr res,
     graphqlBackend_do w r c = (c', tr, res) →
     (length (sent tr) ≤ 1)%nat ∧
     (∀ body, res = Ok body → ∃ req, sent tr = [req])) ∧
  (∀ c c' tr res,
     graphQLCore_do w r c = (c', tr, res) →
     (length (sent tr) ≤ 1)%nat ∧
     (∀ body, res = Ok body → ∃ req, sent tr = [req])).
Proof.
  split; intros c c' tr res Hdo.
  - backend_paths Hdo.
    + split; [cbn; lia | done].
    + split; [cbn; lia | done].
    + rewrite (exchange_sent _ _ _ _ Hx). split; [cbn; lia | eauto].
  - core_paths Hdo.
    + split; [cbn; lia | done].
    + split; [cbn; lia | done].
    + rewrite (exchange_sent _ _ _ _ Hx). split; [cbn; lia | eauto].
    + split; [cbn; lia | done].
    + change (sent (EvAddNonce (macaroon c) (int64_incr (nonce c)) :: t))
        with (sent t).
      rewrite (exchange_sent _ _ _ _ Hx). split; [cbn; lia | eauto].
Qed.

(** X2: every request either transport sends is a POST to the parsed
    form of the configured url whose body is exactly [json.Marshal(r)]. *)
Theorem sent_request_shape `{Externals} (w : World) (r : request)
    (req : Request) :
  (∀ c c' tr res,
     graphqlBackend_do w r c = (c', tr, res) → EvHTTP req ∈ tr →
     ∃ b u, json_Marshal r = Ok b ∧ url_Parse (backend_url c) = Ok u ∧
            Method req = "POST" ∧ URL req = u ∧ Body req = b) ∧
  (∀ c c' tr res,
     graphQLCore_do w r c = (c', tr, res) → EvHTTP req ∈ tr →
     ∃ b u, json_Marshal r = Ok b ∧ url_Parse (url c) = Ok u ∧
            Method req = "POST" ∧ URL req = u ∧ Body req = b).
Proof.
  split; intros c c' tr res Hdo Hin.
  - backend_paths Hdo; [in_trace..|].
    rewrite (exchange_EvHTTP _ _ _ _ _ Hx Hin). by exists b, u.
  - core_paths Hdo; [in_trace | in_trace | | in_trace |].
    + rewrite (exchange_EvHTTP _ _ _ _ _ Hx Hin). by exists b, u.
    + apply elem_of_cons in Hin as [|Hin]; [done|].
      rewrite (exchange_EvHTTP _ _ _ _ _ Hx Hin). by exists b, u.
Qed.

(** X4: when the network fails for the request sent, either transport
    returns ["failed to do http request: "] followed by the error of the
    network; the body is neither read nor closed; and the macaroon
    transport has spent the nonce of the call all the same. *)
Theorem network_failure `{Externals} (w : World) (r : request)
    (req : Request) (e : string) :
  roundTrip w req = Err e →
  (∀ c c' tr res,
     graphqlBackend_do w r c = (c', tr, res) → EvHTTP req ∈ tr →
     res = Err ("failed to do http request: " +:+ e) ∧
     (EvReadAll ∉ tr) ∧ (EvClose ∉ tr)) ∧
  (∀ c c' tr res,
     graphQLCore_do w r c = (c', tr, res) → EvHTTP req ∈ tr →
     res = Err ("failed to do http request: " +:+ e) ∧
     (EvReadAll ∉ tr) ∧ (EvClose ∉ tr) ∧
     (jwt c = "" → nonce c' = int64_incr (nonce c))).
Proof.
  intros Hrt. split; intros c c' tr res Hdo Hin.
  - backend_paths Hdo; [in_trace..|].
    pose proof (exchange_EvHTTP _ _ _ _ _ Hx Hin) as ->.
    exchange_paths Hx; try congruence.
      split_and!; [congruence | in_trace..].
  - core_paths Hdo; [in_trace | in_trace | | in_trace |].
    + pose proof (exchange_EvHTTP _ _ _ _ _ Hx Hin) as ->.
      exchange_paths Hx; try congruence.
      split_and!; [congruence | in_trace..].
    + apply elem_of_cons in Hin as [|Hin]; [done|].
      pose proof (exchange_EvHTTP _ _ _ _ _ Hx Hin) as ->.
      exchange_paths Hx; try congruence.
      split_and!; [congruence | in_trace..].
Qed.

(** X3: when the request cannot be serialized, or the url does not parse,
    either transport returns the error of that stage with its prefix and
    does nothing else: no event, nothing sent, the receiver (its nonce
    included) as before. *)
Theorem unbuilt_request_changes_nothing `{Externals} (w : World) (r : request)
    (e : string) :
  (json_Marshal r = Err e →
   (∀ c, graphqlBackend_do w r c =
           (c, [], Err ("failed to json.Marshal request: " +:+ e))) ∧
   (∀ c, graphQLCore_do w r c =
           (c, [], Err ("failed to json.Marshal request: " +:+ e)))) ∧
  (∀ b, json_Marshal r = Ok b →
     (∀ c, url_Parse (backend_url c) = Err e →
           graphqlBackend_do w r c =
             (c, [], Err ("failed to http.NewRequest: " +:+ e))) ∧
     (∀ c, url_Parse (url c) = Err e →
           graphQLCore_do w r c =
             (c, [], Err ("failed to http.NewRequest: " +:+ e)))).
Proof.
  split.
  - intros Hm. split; intros c.
    + by rewrite graphqlBackend_do_unfold, Hm.
    + by rewrite graphQLCore_do_unfold, Hm.
  - intros b Hm. split; intros c Hu.
    + by rewrite graphqlBackend_do_unfold, Hm, Hu.
    + by rewrite graphQLCore_do_unfold, Hm, Hu.
Qed.

(** X5: in either transport the body of the response is closed exactly
    when a response was received, whatever its status and whether or not
    reading it succeeds, and closing it is the last thing the call does. *)
Theorem body_closed_when_received `{Externals} (w : World) (r : request) :
  (∀ c c' tr res,
     graphqlBackend_do w r c = (c', tr, res) →
     (EvClose ∈ tr ↔
      ∃ req resp, EvHTTP req ∈ tr ∧ roundTrip w req = Ok resp) ∧
     (EvClose ∈ tr → last tr = Some EvClose)) ∧
  (∀ c c' tr res,
     graphQLCore_do w r c = (c', tr, res) →
     (EvClose ∈ tr ↔
      ∃ req resp, EvHTTP req ∈ tr ∧ roundTrip w req = Ok resp) ∧
     (EvClose ∈ tr → last tr = Some EvClose)).
Proof.
  assert (Hex : ∀ req t res,
    exchange w req = (t, res) →
    (EvClose ∈ t ↔ ∃ req' resp, EvHTTP req' ∈ t ∧ roundTrip w req' = Ok resp) ∧
    (EvClose ∈ t → last t = Some EvClose)).
  { intros req t res Hx. split.
    - split.
      + intros Hin. exists req.
        exchange_paths Hx; [in_trace | exists resp..];
          (split; [apply list_elem_of_here | done]).
      + intros (req' & resp & Hin & Hrt).
        pose proof (exchange_EvHTTP _ _ _ _ _ Hx Hin) as ->.
        exchange_paths Hx; [congruence | in_trace..].
    - intros Hin. exchange_paths Hx; [in_trace | done..]. }
  split; intros c c' tr res Hdo.
  - backend_paths Hdo; [| |by eapply Hex];
      (split; [split; [intros ? | intros (? & ? & ? & ?)] | intros ?];
       trace_inv).
  - core_paths Hdo; [| |by eapply Hex| |];
      try solve [split; [split; [intros ? | intros (? & ? & ? & ?)] | intros ?];
                 trace_inv].
    destruct (Hex _ _ _ Hx) as [[H1 H2] H3]. split; [split|].
    + intros Hin. apply elem_of_cons in Hin as [|Hin]; [done|].
      destruct (H1 Hin) as (req' & resp & Hin' & Hrt).
      exists req', resp. split; [by apply list_elem_of_further | done].
    + intros (req' & resp & Hin & Hrt).
      apply elem_of_cons in Hin as [|Hin]; [done|].
      apply list_elem_of_further. apply H2. eauto.
    + intros Hin. apply elem_of_cons in Hin as [|Hin]; [done|].
      specialize (H3 Hin). destruct t; [done|]. exact H3.
Qed.

(** X6: either transport returns a body exactly when it sent a request,
    the network answered it with status 200 and reading the body to the
    end gave that body. *)
Theorem do_succeeds_iff `{Externals} (w : World) (r : request) (body : bytes) :
  (∀ c c' tr res,
     graphqlBackend_do w r c = (c', tr, res) →
     (res = Ok body ↔
      ∃ req resp, EvHTTP req ∈ tr ∧ roundTrip w req = Ok resp ∧
                  StatusCode resp = StatusOK ∧ RespBody resp = Ok body)) ∧
  (∀ c c' tr res,
     graphQLCore_do w r c = (c', tr, res) →
     (res = Ok body ↔
      ∃ req resp, EvHTTP req ∈ tr ∧ roundTrip w req = Ok resp ∧
                  StatusCode resp = StatusOK ∧ RespBody resp = Ok body)).
Proof.
  assert (Hex : ∀ req t res,
    exchange w req = (t, res) →
    (res = Ok body ↔
     ∃ req' resp, EvHTTP req' ∈ t ∧ roundTrip w req' = Ok resp ∧
                  StatusCode resp = StatusOK ∧ RespBody resp = Ok body)).
  { intros req t res Hx. split.
    - intros Hres. exchange_paths Hx; [done..|].
      exists req, resp. split_and!; [apply list_elem_of_here | done..|].
      by destruct (RespBody resp).
    - intros (req' & resp & Hin & Hrt & Hst & Hb).
      pose proof (exchange_EvHTTP _ _ _ _ _ Hx Hin) as ->.
      exchange_paths Hx; try congruence.
      assert (resp0 = resp) as -> by congruence. by rewrite Hb. }
  split; intros c c' tr res Hdo.
  - backend_paths Hdo; [| |by eapply Hex];
      (split; [done | intros (? & ? & ? & ?); trace_inv]).
  - core_paths Hdo; [| |by eapply Hex| |];
      try solve [split; [done | intros (? & ? & ? & ?); trace_inv]].
    + destruct (Hex _ _ _ Hx) as [H1 H2]. split.
      * intros Hres. destruct (H1 Hres) as (req' & resp & Hin & Hrest).
        exists req', resp. split; [by apply list_elem_of_further | done].
      * intros (req' & resp & Hin & Hrest).
        apply elem_of_cons in Hin as [|Hin]; [done|]. apply H2. eauto.
Qed.

(** X7: the bearer transport never changes its receiver and never asks
    for a nonce; neither does the macaroon transport once a jwt is set. *)
Theorem bearer_mode_is_stateless `{Externals} (w : World) (r : request) :
  (∀ c c' tr res,
     graphqlBackend_do w r c = (c', tr, res) → c' = c ∧ nonces tr = []) ∧
  (∀ c c' tr res,
     jwt c ≠ "" →
     graphQLCore_do w r c = (c', tr, res) → c' = c ∧ nonces tr = []).
Proof.
  split.
  - intros c c' tr res Hdo. backend_paths Hdo; [done..|].
    split; [done|]. by eapply exchange_nonces.
  - intros c c' tr res Hj Hdo.
    destruct (do_step _ _ _ _ _ _ Hdo) as [?|(? & _)]; done.
Qed.

Section Sequences.
Context `{Externals}.

Lemma exchange_no_AddNonce w req t res m n :
  exchange w req = (t, res) → EvAddNonce m n ∉ t.
Proof. intros Hx Hin. exchange_paths Hx; trace_inv. Qed.

(** One call keeps the configuration and attenuates the root macaroon. *)
Lemma do_config w r c c' tr res :
  graphQLCore_do w r c = (c', tr, res) →
  url c' = url c ∧ macaroon c' = macaroon c ∧ jwt c' = jwt c ∧
  ∀ m n, EvAddNonce m n ∈ tr → m = macaroon c.
Proof.
  intros Hdo. core_paths Hdo; (split_and!; [done..|]); intros m n Hin;
    trace_inv; try congruence.
  - by destruct (exchange_no_AddNonce _ _ _ _ _ _ Hx Hin).
  - by destruct (exchange_no_AddNonce _ _ _ _ _ _ Hx Hin).
Qed.

Lemma calls_consecutive (l : list (World * request)) :
  ∀ c c' tr,
    is_int64 (nonce c) →
    nonce c + Z.of_nat (length l) <= MaxInt64 →
    calls l c = (c', tr) →
    nonces tr = seqZ (nonce c + 1) (Z.of_nat (length (nonces tr))) ∧
    nonce c' = nonce c + Z.of_nat (length (nonces tr)) ∧
    (length (nonces tr) ≤ length l)%nat.
Proof.
  induction l as [|[w r] l IH]; intros c c' tr Hc Hb Hcalls.
  - simplify_eq/=. split_and!; [done | lia | lia].
  - cbn [calls] in Hcalls.
    destruct (graphQLCore_do w r c) as [[c1 t1] res] eqn:Hdo.
    destruct (calls l c1) as [c2 t2] eqn:Hrest. simplify_eq.
    rewrite nonces_app. cbn [length] in Hb |- *.
    destruct (do_step _ _ _ _ _ _ Hdo) as [[-> ->]|(_ & -> & ->)].
    + destruct (IH c c' t2) as (Hs & Hn & Hl); [done | lia | done |].
      cbn [app]. split_and!; [done | done | lia].
    + assert (Hn1 : int64_incr (nonce c) = nonce c + 1)
        by (apply int64_incr_succ; [done | lia]).
      destruct (IH (nonce_incr c) c' t2) as (Hs & Hn & Hl);
        [apply int64_incr_range | cbn; lia | done |].
      cbn [nonce nonce_incr] in Hs, Hn. rewrite Hn1 in *.
      cbn [app length]. split_and!; [| lia | lia].
      rewrite (seqZ_cons (nonce c + 1)) by lia. f_equal.
      replace (Z.succ (nonce c + 1)) with (nonce c + 1 + 1) by lia.
      replace (Z.pred (Z.of_nat (S (length (nonces t2)))))
        with (Z.of_nat (length (nonces t2))) by lia.
      exact Hs.
Qed.

Lemma int64_wrap_small (z : Z) : is_int64 z → int64_wrap z = z.
Proof.
  unfold is_int64, int64_wrap, MinInt64, MaxInt64. intros Hz.
  rewrite Z.mod_small; lia.
Qed.

Lemma int64_wrap_add_l (a b : Z) :
  int64_wrap (int64_wrap a + b) = int64_wrap (a + b).
Proof.
  unfold int64_wrap. f_equal.
  replace ((a + 2 ^ 63) mod 2 ^ 64 - 2 ^ 63 + b + 2 ^ 63)
    with ((a + 2 ^ 63) mod 2 ^ 64 + b) by lia.
  rewrite Zplus_mod_idemp_l. f_equal. lia.
Qed.

End Sequences.

(** X8: over any sequence of calls the macaroon transport keeps its url,
    its root macaroon and its jwt, and every nonce caveat is added to the
    root macaroon itself: caveats do not pile up from call to call. *)
Theorem calls_keep_configuration `{Externals} (l : list (World * request))
    (c c' : graphQLCore) (tr : list event) :
  calls l c = (c', tr) →
  url c' = url c ∧ macaroon c' = macaroon c ∧ jwt c' = jwt c ∧
  ∀ m n, EvAddNonce m n ∈ tr → m = macaroon c.
Proof.
  revert c c' tr.
  induction l as [|[w r] l IH]; intros c c' tr Hcalls.
  - simplify_eq/=. split_and!; [done..|]. intros m n Hin. trace_inv.
  - cbn [calls] in Hcalls.
    destruct (graphQLCore_do w r c) as [[c1 t1] res] eqn:Hdo.
    destruct (calls l c1) as [c2 t2] eqn:Hrest. simplify_eq.
    destruct (do_config _ _ _ _ _ _ Hdo) as (Hu & Hm & Hj & Hroot).
    destruct (IH _ _ _ Hrest) as (Hu' & Hm' & Hj' & Hroot').
    split_and!; [congruence..|].
    intros m n [Hin|Hin]%elem_of_app; [eauto|].
    rewrite <- Hm. eauto.
Qed.

(** X9: as long as the counter stays within [int64], the nonces handed
    out over a sequence of calls are the consecutive integers that follow
    the starting value, and the counter ends at the starting value plus
    their number: no value is skipped between two attempts. *)
Theorem nonces_are_consecutive `{Externals} (l : list (World * request))
    (c c' : graphQLCore) (tr : list event) :
  is_int64 (nonce c) →
  nonce c + Z.of_nat (length l) <= MaxInt64 →
  calls l c = (c', tr) →
  nonces tr = seqZ (nonce c + 1) (Z.of_nat (length (nonces tr))) ∧
  nonce c' = nonce c + Z.of_nat (length (nonces tr)).
Proof.
  intros Hc Hb Hcalls.
  destruct (calls_consecutive l c c' tr Hc Hb Hcalls) as (Hs & Hn & _).
  by split.
Qed.

(** X10: in every case, overflow included, the counter after a sequence
    of calls is the starting value plus the number of nonces handed out,
    wrapped to [int64]. *)
Theorem counter_counts_attempts `{Externals} (l : list (World * request))
    (c c' : graphQLCore) (tr : list event) :
  is_int64 (nonce c) →
  calls l c = (c', tr) →
  nonce c' = int64_wrap (nonce c + Z.of_nat (length (nonces tr))) ∧
  is_int64 (nonce c').
Proof.
  intros Hc Hcalls.
  assert (Hn : nonce c' = int64_wrap (nonce c + Z.of_nat (length (nonces tr)))).
  { revert c c' tr Hc Hcalls.
    induction l as [|[w r] l IH]; intros c c' tr Hc Hcalls.
    - simplify_eq/=. rewrite Z.add_0_r. by rewrite int64_wrap_small.
    - cbn [calls] in Hcalls.
      destruct (graphQLCore_do w r c) as [[c1 t1] res] eqn:Hdo.
      destruct (calls l c1) as [c2 t2] eqn:Hrest. simplify_eq.
      rewrite nonces_app.
      destruct (do_step _ _ _ _ _ _ Hdo) as [[-> ->]|(_ & -> & ->)].
      + by apply IH.
      + rewrite (IH (nonce_incr c) c' t2); [|apply int64_incr_range|done].
        cbn [nonce nonce_incr app length]. unfold int64_incr.
        rewrite int64_wrap_add_l. f_equal. lia. }
  rewrite Hn. split; [done|].
  unfold is_int64, int64_wrap, MinInt64, MaxInt64.
  pose proof (Z.mod_pos_bound
                (nonce c + Z.of_nat (length (nonces tr)) + 2 ^ 63) (2 ^ 64)
                ltac:(lia)). lia.
Qed.

(** X11: the requests of the bearer transport, and those of the macaroon
    transport without a jwt, carry the two headers [Content-Type] and
    [Authorization] and no other. *)
Theorem sent_headers_exact `{Externals} (w : World) (r : request)
    (req : Request) :
  (∀ c c' tr res,
     graphqlBackend_do w r c = (c', tr, res) → EvHTTP req ∈ tr →
     dom (Header req) = ({["Content-Type"; "Authorization"]} : gset string)) ∧
  (∀ c c' tr res,
     jwt c = "" →
     graphQLCore_do w r c = (c', tr, res) → EvHTTP req ∈ tr →
     dom (Header req) = ({["Content-Type"; "Authorization"]} : gset string)).
Proof.
  assert (Hdom : ∀ u b v,
    dom (Header (Set_Header
                   (Set_Header (POST u b) "Content-Type" "application/json")
                   "Authorization" v))
    = ({["Content-Type"; "Authorization"]} : gset string)).
  { intros u b v. cbn. unfold Header_Set.
    rewrite !dom_insert_L, dom_empty_L.
    apply set_eq. intros k. rewrite !elem_of_union, !elem_of_singleton,
      elem_of_empty. tauto. }
  split.
  - intros c c' tr res Hdo Hin. backend_paths Hdo; [trace_inv..|].
    by rewrite (exchange_EvHTTP _ _ _ _ _ Hx Hin).
  - intros c c' tr res Hj0 Hdo Hin.
    core_paths Hdo; [trace_inv | trace_inv | done | trace_inv |].
    apply elem_of_cons in Hin as [|Hin]; [done|].
    by rewrite (exchange_EvHTTP _ _ _ _ _ Hx Hin).
Qed.

(** ** Further properties of the error envelope formatter *)

Lemma Error_None_len (rb : responseBase) :
  Error rb = None ↔ len (Errors rb) = 0.
Proof.
  unfold Error, len. destruct (elems (Errors rb)) as [|e rest]; cbn [length].
  - done.
  - split; [done | lia].
Qed.

(** X12: [responseBase.Error] is nil exactly when there is no error; and a
    message it returns always contains the text of the first error,
    unchanged. *)
Theorem Error_nil_or_first_message (rb : responseBase) :
  (Error rb = None ↔ len (Errors rb) = 0) ∧
  (∀ msg, Error rb = Some msg →
     ∃ e before after,
       elems (Errors rb) !! 0%nat = Some e ∧
       msg = before +:+ Message e +:+ after).
Proof.
  split; [apply Error_None_len|].
  unfold Error. destruct (elems (Errors rb)) as [|e rest] eqn:Hel; [done|].
  intros msg Hmsg. exists e. cbn zeta in Hmsg.
  assert (Hfirst : ∃ after,
    match elems (Locations e) with
    | [] => Message e
    | [l] => Message e +:+ ", location: " +:+ itoa (Line l) +:+ ":"
                       +:+ itoa (Column l)
    | ls => range_Locations 0 ls (Message e +:+ ", locations: ")
    end = Message e +:+ after).
  { destruct (elems (Locations e)) as [|l [|l' ls]].
    - exists "". by rewrite append_empty_r.
    - by eexists.
    - rewrite range_Locations_concat, append_assoc. by eexists. }
  destruct Hfirst as [after Hfirst]. rewrite Hfirst in Hmsg.
  destruct (decide (1 < len (Errors rb))); simplify_eq.
  - exists (itoa (len (Errors rb)) +:+ " errors occurred, first one is: "), after.
    split; [done|]. by rewrite !append_assoc.
  - by exists "", after.
Qed.

(** X13: the message of [responseBase.Error] depends on the errors after
    the first only through their number, and on the first only through its
    text and the elements of its locations (an absent list is as an empty
    one). *)
Theorem Error_first_and_count (e e' : responseError)
    (rest rest' : list responseError) :
  Message e = Message e' →
  elems (Locations e) = elems (Locations e') →
  length rest = length rest' →
  Error {| Errors := Some (e :: rest) |} = Error {| Errors := Some (e' :: rest') |}.
Proof.
  intros Hm Hl Hn. unfold Error, len. cbn [elems Errors length].
  by rewrite Hm, Hl, Hn.
Qed.

(** ** Further properties of the client *)

Section Operations.
Context `{Externals} `{!core C}.

(** An operation that returns its zero value with every error. *)
Lemma zero_on_error_outcome {T D : Type} (zero : T) (get : D → T)
    (res : result bytes) (dec : bytes → result (response D))
    (v : T) (err : error) :
  match res with
  | Err e => (zero, Some ("failed to do request: " +:+ e))
  | Ok respJSON =>
    match dec respJSON with
    | Err e => (zero, Some ("failed to json.Unmarshal resp: " +:+ e))
    | Ok resp =>
      match Error (base resp) with
      | Some e => (zero, Some ("exchange error: " +:+ e))
      | None => (get (Data resp), None)
      end
    end
  end = (v, err) →
  (err = None ↔
   ∃ respJSON resp, res = Ok respJSON ∧ dec respJSON = Ok resp ∧
                    len (Errors (base resp)) = 0 ∧ v = get (Data resp)) ∧
  (err ≠ None → v = zero).
Proof.
  intros Hout. destruct res as [respJSON|e]; [|simplify_eq; split;
    [split; [done | by intros (? & ? & ? & ?)] | done]].
  destruct (dec respJSON) as [resp|e] eqn:Hdec; [|simplify_eq; split;
    [split; [done | intros (? & ? & ? & ? & ?); congruence] | done]].
  destruct (Error (base resp)) as [e|] eqn:Herr; simplify_eq.
  - split; [split; [done|] | done].
    intros (? & resp' & ? & ? & Hlen & ?). simplify_eq.
    apply Error_None_len in Hlen. congruence.
  - split; [split; [|done] | done].
    intros _. exists respJSON, resp. split_and!; try done.
    by apply Error_None_len.
Qed.


(** An operation that returns what it decoded next to an exchange error. *)
Lemma data_on_error_outcome {T D : Type} (empty : T) (get : D → T)
    (res : result bytes) (dec : bytes → result (response D))
    (v : T) (err : error) :
  match res with
  | Err e => (empty, Some ("failed to do request: " +:+ e))
  | Ok respJSON =>
    match dec respJSON with
    | Err e => (empty, Some ("failed to json.Unmarshal resp: " +:+ e))
    | Ok resp =>
      match Error (base resp) with
      | Some e => (get (Data resp), Some ("exchange error: " +:+ e))
      | None => (get (Data resp), None)
      end
    end
  end = (v, err) →
  (err = None ↔
   ∃ respJSON resp, res = Ok respJSON ∧ dec respJSON = Ok resp ∧
                    len (Errors (base resp)) = 0) ∧
  (∀ respJSON resp, res = Ok respJSON → dec respJSON = Ok resp →
                    v = get (Data resp)) ∧
  ((∀ respJSON resp, res = Ok respJSON → dec respJSON ≠ Ok resp) →
   v = empty ∧ err ≠ None).
Proof.
  intros Hout. destruct res as [respJSON|e].
  - destruct (dec respJSON) as [resp|e] eqn:Hdec.
    + destruct (Error (base resp)) as [e|] eqn:Herr; simplify_eq.
      * split_and!.
        -- split; [done|]. intros (? & resp' & ? & ? & Hlen). simplify_eq.
           apply Error_None_len in Hlen. congruence.
        -- intros rj rs Hr Hd. simplify_eq. congruence.
        -- intros Hno. by destruct (Hno respJSON resp).
      * split_and!.
        -- split; [|done]. intros _. exists respJSON, resp.
           split_and!; try done. by apply Error_None_len.
        -- intros rj rs Hr Hd. simplify_eq. congruence.
        -- intros Hno. by destruct (Hno respJSON resp).
    + simplify_eq. split_and!.
      * split; [done|]. intros (? & ? & ? & ? & ?). congruence.
      * intros ? ? ? ?. congruence.
      * done.
  - simplify_eq. split_and!.
    + split; [done|]. by intros (? & ? & ? & ?).
    + done.
    + done.
Qed.

(** The effect of an operation on its client and its trace are those of
    its one call of the core. *)
Lemma Order_is_one_call `{!Unmarshal Order} w id (c : Client C) :
  (Client_Order w id c).1 =
  ({| client_core :=
        (do w {| Query := Order_Query; Variables := orderRequestVariables id |}
            (client_core c)).1.1 |},
   (do w {| Query := Order_Query; Variables := orderRequestVariables id |}
       (client_core c)).1.2).
Proof.
  unfold Client_Order. cbn zeta.
  destruct (do w _ (client_core c)) as [[core' tr] [respJSON|e]]; [|done].
  destruct (json_Unmarshal respJSON) as [resp|e]; [|done].
  by destruct (Error (base resp)).
Qed.

Lemma Accounts_is_one_call `{!Unmarshal (slice Account)} w assets (c : Client C) :
  (Accounts w assets c).1 =
  ({| client_core :=
        (do w {| Query := Accounts_Query; Variables := AccountsRequest assets |}
            (client_core c)).1.1 |},
   (do w {| Query := Accounts_Query; Variables := AccountsRequest assets |}
       (client_core c)).1.2).
Proof.
  unfold Accounts. cbn zeta.
  destruct (do w _ (client_core c)) as [[core' tr] [respJSON|e]]; [|done].
  destruct (json_Unmarshal respJSON) as [resp|e]; [|done].
  by destruct (Error (base resp)).
Qed.

Lemma UserID_is_one_call `{!Unmarshal UserID_Data} w (c : Client C) :
  (UserID w c).1 =
  ({| client_core :=
        (do w {| Query := UserID_Query; Variables := no_variables |}
            (client_core c)).1.1 |},
   (do w {| Query := UserID_Query; Variables := no_variables |}
       (client_core c)).1.2).
Proof.
  unfold UserID. cbn zeta.
  destruct (do w _ (client_core c)) as [[core' tr] [respJSON|e]]; [|done].
  destruct (json_Unmarshal respJSON) as [resp|e]; [|done].
  by destruct (Error (base resp)).
Qed.

Lemma IssueApiToken_is_one_call `{!Unmarshal IssueApiToken_Data} w (c : Client C) :
  (IssueApiToken w c).1 =
  ({| client_core :=
        (do w {| Query := IssueApiToken_Query; Variables := no_variables |}
            (client_core c)).1.1 |},
   (do w {| Query := IssueApiToken_Query; Variables := no_variables |}
       (client_core c)).1.2).
Proof.
  unfold IssueApiToken. cbn zeta.
  destruct (do w _ (client_core c)) as [[core' tr] [respJSON|e]]; [|done].
  destruct (json_Unmarshal respJSON) as [resp|e]; [|done].
  by destruct (Error (base resp)).
Qed.

Lemma Tickers_is_one_call `{!Unmarshal (slice Ticker)} w markets (c : Client C) :
  len markets ≠ 0 →
  (Tickers w markets c).1 =
  ({| client_core :=
        (do w {| Query := Tickers_Query;
                 Variables := tickersRequestVariables markets |}
            (client_core c)).1.1 |},
   (do w {| Query := Tickers_Query;
            Variables := tickersRequestVariables markets |}
       (client_core c)).1.2).
Proof.
  intros Hlen. unfold Tickers. rewrite decide_False by done. cbn zeta.
  destruct (do w _ (client_core c)) as [[core' tr] [respJSON|e]]; [|done].
  destruct (json_Unmarshal respJSON) as [resp|e]; [|done].
  by destruct (Error (base resp)).
Qed.

End Operations.

(** X14: [Order], [UserID] and [Tickers] (with markets) return a nil
    error exactly when the core returned a body, the body decoded and the
    decoded list of errors is empty, and the value is then the decoded
    one; with any error they return the zero value ([Order{}], [""],
    nil). *)
Theorem value_only_without_error `{Externals} `{!core C}
    `{!Unmarshal Order} `{!Unmarshal UserID_Data} `{!Unmarshal (slice Ticker)}
    (w : World) (c : Client C) :
  (∀ id v err,
     (Client_Order w id c).2 = (v, err) →
     (err = None ↔
      ∃ respJSON (resp : response Order),
        (do w {| Query := Order_Query; Variables := orderRequestVariables id |}
            (client_core c)).2 = Ok respJSON ∧
        json_Unmarshal respJSON = Ok resp ∧
        len (Errors (base resp)) = 0 ∧ v = Data resp) ∧
     (err ≠ None → v = Order_zero)) ∧
  (∀ v err,
     (UserID w c).2 = (v, err) →
     (err = None ↔
      ∃ respJSON (resp : response UserID_Data),
        (do w {| Query := UserID_Query; Variables := no_variables |}
            (client_core c)).2 = Ok respJSON ∧
        json_Unmarshal respJSON = Ok resp ∧
        len (Errors (base resp)) = 0 ∧ v = User_ID (Data resp)) ∧
     (err ≠ None → v = "")) ∧
  (∀ markets v err,
     len markets ≠ 0 →
     (Tickers w markets c).2 = (v, err) →
     (err = None ↔
      ∃ respJSON (resp : response (slice Ticker)),
        (do w {| Query := Tickers_Query;
                 Variables := tickersRequestVariables markets |}
            (client_core c)).2 = Ok respJSON ∧
        json_Unmarshal respJSON = Ok resp ∧
        len (Errors (base resp)) = 0 ∧ v = Data resp) ∧
     (err ≠ None → v = None)).
Proof.
  split_and!.
  - intros id v err Hout.
    apply (zero_on_error_outcome Order_zero (λ d, d) _ json_Unmarshal).
    etransitivity; [|exact Hout]. unfold Client_Order. cbn zeta.
    destruct (do w _ (client_core c)) as [[core' tr] [respJSON|e]]; [|done].
    cbn [snd]. destruct (json_Unmarshal respJSON) as [resp|e]; [|done].
    by destruct (Error (base resp)).
  - intros v err Hout.
    apply (zero_on_error_outcome "" User_ID _ json_Unmarshal).
    etransitivity; [|exact Hout]. unfold UserID. cbn zeta.
    destruct (do w _ (client_core c)) as [[core' tr] [respJSON|e]]; [|done].
    cbn [snd]. destruct (json_Unmarshal respJSON) as [resp|e]; [|done].
    by destruct (Error (base resp)).
  - intros markets v err Hlen Hout.
    apply (zero_on_error_outcome (T := slice Ticker) (D := slice Ticker)
             None (λ d, d) _ json_Unmarshal).
    etransitivity; [|exact Hout]. unfold Tickers. rewrite decide_False by done. cbn zeta.
    destruct (do w _ (client_core c)) as [[core' tr] [respJSON|e]]; [|done].
    cbn [snd]. destruct (json_Unmarshal respJSON) as [resp|e]; [|done].
    by destruct (Error (base resp)).
Qed.

(** X15: [Accounts] and [IssueApiToken] return a nil error exactly when
    the core returned a body, the body decoded and the decoded list of
    errors is empty; whenever the body decoded they return the decoded
    value, with or without an exchange error; and when the core or the
    decoding failed they return the empty value ([[]Account{}], [""])
    with an error. *)
Theorem decoded_value_survives_exchange_error `{Externals} `{!core C}
    `{!Unmarshal (slice Account)} `{!Unmarshal IssueApiToken_Data}
    (w : World) (c : Client C) :
  (∀ assets v err,
     (Accounts w assets c).2 = (v, err) →
     let res := (do w {| Query := Accounts_Query;
                         Variables := AccountsRequest assets |}
                    (client_core c)).2 in
     (err = None ↔
      ∃ respJSON (resp : response (slice Account)), res = Ok respJSON ∧ json_Unmarshal respJSON = Ok resp ∧
                       len (Errors (base resp)) = 0) ∧
     (∀ respJSON (resp : response (slice Account)), res = Ok respJSON → json_Unmarshal respJSON = Ok resp →
                       v = Data resp) ∧
     ((∀ respJSON (resp : response (slice Account)), res = Ok respJSON → json_Unmarshal respJSON ≠ Ok resp) →
      v = Some [] ∧ err ≠ None)) ∧
  (∀ v err,
     (IssueApiToken w c).2 = (v, err) →
     let res := (do w {| Query := IssueApiToken_Query;
                         Variables := no_variables |}
                    (client_core c)).2 in
     (err = None ↔
      ∃ respJSON (resp : response IssueApiToken_Data), res = Ok respJSON ∧ json_Unmarshal respJSON = Ok resp ∧
                       len (Errors (base resp)) = 0) ∧
     (∀ respJSON (resp : response IssueApiToken_Data), res = Ok respJSON → json_Unmarshal respJSON = Ok resp →
                       v = Data_IssueApiToken (Data resp)) ∧
     ((∀ respJSON (resp : response IssueApiToken_Data), res = Ok respJSON → json_Unmarshal respJSON ≠ Ok resp) →
      v = "" ∧ err ≠ None)).
Proof.
  split.
  - intros assets v err Hout res.
    apply (data_on_error_outcome (T := slice Account) (D := slice Account)
             (Some []) (λ d, d) _ json_Unmarshal).
    subst res. etransitivity; [|exact Hout]. unfold Accounts. cbn zeta.
    destruct (do w _ (client_core c)) as [[core' tr] [respJSON|e]]; [|done].
    cbn [snd]. destruct (json_Unmarshal respJSON) as [resp|e]; [|done].
    by destruct (Error (base resp)).
  - intros v err Hout res.
    apply (data_on_error_outcome "" Data_IssueApiToken _ json_Unmarshal).
    subst res. etransitivity; [|exact Hout]. unfold IssueApiToken. cbn zeta.
    destruct (do w _ (client_core c)) as [[core' tr] [respJSON|e]]; [|done].
    cbn [snd]. destruct (json_Unmarshal respJSON) as [resp|e]; [|done].
    by destruct (Error (base resp)).
Qed.

(** X16: an operation run on the [mockCore] of the tests records the
    request of the operation (its query, and its arguments as variables),
    leaves the preset response and error as they were, and has no effect
    outside. *)
Theorem mock_records_request `{Externals}
    `{!Unmarshal Order} `{!Unmarshal (slice Account)}
    `{!Unmarshal UserID_Data} `{!Unmarshal IssueApiToken_Data}
    `{!Unmarshal (slice Ticker)}
    (w : World) (c : Client mockCore) :
  let recorded (r : request) : Client mockCore * list event :=
    ({| client_core := {| mock_request := r;
                          respJSON := respJSON (client_core c);
                          mock_error := mock_error (client_core c) |} |},
     []) in
  (∀ id, (Client_Order w id c).1 =
         recorded {| Query := Order_Query;
                     Variables := orderRequestVariables id |}) ∧
  (∀ assets, (Accounts w assets c).1 =
             recorded {| Query := Accounts_Query;
                         Variables := AccountsRequest assets |}) ∧
  (UserID w c).1 =
    recorded {| Query := UserID_Query; Variables := no_variables |} ∧
  (IssueApiToken w c).1 =
    recorded {| Query := IssueApiToken_Query; Variables := no_variables |} ∧
  (∀ markets, len markets ≠ 0 →
     (Tickers w markets c).1 =
     recorded {| Query := Tickers_Query;
                 Variables := tickersRequestVariables markets |}).
Proof.
  cbn zeta. split_and!.
  - intros id. by rewrite Order_is_one_call.
  - intros assets. by rewrite Accounts_is_one_call.
  - by rewrite UserID_is_one_call.
  - by rewrite IssueApiToken_is_one_call.
  - intros markets Hlen. by rewrite Tickers_is_one_call.
Qed.

(** X17: on a macaroon core without a jwt, [Order], and [Tickers] with
    markets, spend exactly one nonce whenever their request can be built,
    whatever the network, the decoding and the exchange answer
    afterwards. *)
Theorem operation_consumes_one_nonce `{Externals}
    `{!Unmarshal Order} `{!Unmarshal (slice Ticker)}
    (w : World) (c : graphQLCore) (b u : string) :
  jwt c = "" → url_Parse (url c) = Ok u →
  (∀ id,
     json_Marshal {| Query := Order_Query;
                     Variables := orderRequestVariables id |} = Ok b →
     nonce (client_core (Client_Order w id {| client_core := c |}).1.1)
       = int64_incr (nonce c) ∧
     nonces (Client_Order w id {| client_core := c |}).1.2
       = [int64_incr (nonce c)]) ∧
  (∀ markets,
     len markets ≠ 0 →
     json_Marshal {| Query := Tickers_Query;
                     Variables := tickersRequestVariables markets |} = Ok b →
     nonce (client_core (Tickers w markets {| client_core := c |}).1.1)
       = int64_incr (nonce c) ∧
     nonces (Tickers w markets {| client_core := c |}).1.2
       = [int64_incr (nonce c)]).
Proof.
  intros Hj Hu. split.
  - intros id Hm. rewrite Order_is_one_call. cbn [fst snd client_core].
    destruct (do_step_reached w _ c b u Hj Hm Hu) as [Hc Hn].
    unfold do, graphQLCore_core. by rewrite Hc, Hn.
  - intros markets Hlen Hm. rewrite Tickers_is_one_call by done.
    cbn [fst snd client_core].
    destruct (do_step_reached w _ c b u Hj Hm Hu) as [Hc Hn].
    unfold do, graphQLCore_core. by rewrite Hc, Hn.
Qed.

(** X18: [UserID] on the client that the bearer constructor builds, when
    the request can be built and the network answers: the client is
    unchanged; a status other than 200 comes back as ["failed to do
    request: unexpected response status: <status>"]; an unreadable body as
    ["failed to do request: failed to read response body: <error>"]; a
    decoded answer without errors gives the user id and a nil error; one
    with errors gives [""] and ["exchange error: "] followed by the
    formatted error. *)
Theorem bearer_client_end_to_end `{Externals} `{!Unmarshal UserID_Data}
    (w : World) (addr token : string) (b u : string) (resp : Response) :
  json_Marshal {| Query := UserID_Query; Variables := no_variables |} = Ok b →
  url_Parse addr = Ok u →
  roundTrip w (Set_Header
                 (Set_Header (POST u b) "Content-Type" "application/json")
                 "Authorization" ("Bearer " +:+ token)) = Ok resp →
  let '(c', tr, (id, err)) := UserID w (NewBearerClient addr token) in
  c' = NewBearerClient addr token ∧
  (StatusCode resp ≠ StatusOK →
     id = "" ∧
     err = Some ("failed to do request: unexpected response status: "
                 +:+ Status resp)) ∧
  (∀ e, StatusCode resp = StatusOK → RespBody resp = Err e →
     id = "" ∧
     err = Some ("failed to do request: failed to read response body: "
                 +:+ e)) ∧
  (∀ body (decoded : response UserID_Data),
     StatusCode resp = StatusOK → RespBody resp = Ok body →
     json_Unmarshal body = Ok decoded →
     (len (Errors (base decoded)) = 0 →
        id = User_ID (Data decoded) ∧ err = None) ∧
     (∀ msg, Error (base decoded) = Some msg →
        id = "" ∧ err = Some ("exchange error: " +:+ msg))).
Proof.
  intros Hm Hu Hrt. unfold UserID, NewBearerClient. cbn zeta.
  cbn [client_core]. unfold do, graphqlBackend_core.
  rewrite graphqlBackend_do_unfold, Hm. cbn [backend_url authToken].
  rewrite Hu. unfold exchange. rewrite Hrt.
  destruct (decide (StatusCode resp ≠ StatusOK)) as [Hs|Hs].
  - split_and!; [done | done | intros; congruence | intros; congruence].
  - destruct (RespBody resp) as [body|e].
    + destruct (json_Unmarshal body) as [decoded|e] eqn:Hdec.
      * destruct (Error (base decoded)) as [msg|] eqn:Herr.
        -- split_and!; [done | done | done |].
           intros body' decoded' _ [= <-] Hdec'.
           assert (decoded' = decoded) as -> by congruence.
           split; [|intros; split; congruence].
           intros Hlen. apply Error_None_len in Hlen. congruence.
        -- split_and!; [done | done | done |].
           intros body' decoded' _ [= <-] Hdec'.
           assert (decoded' = decoded) as -> by congruence.
           split; [done | intros; congruence].
      * split_and!; [done | done | done |].
        intros body' decoded' _ [= <-] Hdec'. congruence.
    + split_and!; [done | done | | done].
      intros e' _ [= <-]. done.
Qed.

(** X19: [NewClient] returns either a client and a nil error or the nil
    client and an error, never both and never neither; it fails only on a
    non-empty macaroon that does not decode; and the client it returns has
    the url and the jwt given, the counter at 0, and as macaroon the
    decoded one, or the nil pointer when the string is empty. *)
Theorem NewClient_client_or_error `{Externals} (addr mac token : string) :
  match NewClient addr mac token with
  | (Some c, None) =>
    url (client_core c) = addr ∧ jwt (client_core c) = token ∧
    nonce (client_core c) = 0 ∧
    (if decide (mac = "")
     then macaroon (client_core c) = nil_Macaroon
     else auth_DecodeMacaroon mac = Ok (macaroon (client_core c)))
  | (None, Some e) =>
    mac ≠ "" ∧ auth_DecodeMacaroon mac = Err e
  | _ => False
  end.
Proof.
  unfold NewClient. cbn zeta.
  destruct (decide (mac ≠ "")) as [Hne|He].
  - destruct (auth_DecodeMacaroon mac) as [m|e]; [|done].
    cbn. by rewrite decide_False.
  - assert (mac = "") as -> by (by destruct (decide (mac = ""))).
    done.
Qed.

(** X20: over a sequence of at most [2^63 - 1] calls, so that the [int64]
    counter does not overflow, the nonces of a client fresh from
    [NewClient] are 1, 2, 3, ... in the order of its calls, and its counter
    is their number. *)
Theorem fresh_client_counts_from_one `{Externals} (addr mac token : string)
    (client : Client graphQLCore) (l : list (World * request))
    (c' : graphQLCore) (tr : list event) :
  NewClient addr mac token = (Some client, None) →
  Z.of_nat (length l) <= MaxInt64 →
  calls l (client_core client) = (c', tr) →
  nonces tr = seqZ 1 (Z.of_nat (length (nonces tr))) ∧
  nonce c' = Z.of_nat (length (nonces tr)).
Proof.
  intros Hnew Hb Hcalls.
  assert (Hz : nonce (client_core client) = 0).
  { unfold NewClient in Hnew. cbn zeta in Hnew.
    destruct (if decide (mac ≠ "") then _ else _); by simplify_eq. }
  destruct (calls_consecutive l (client_core client) c' tr)
    as (Hs & Hn & _); [| |done|].
  - rewrite Hz. unfold is_int64, MinInt64, MaxInt64. lia.
  - rewrite Hz. lia.
  - rewrite Hz in Hs, Hn. by split.
Qed.

(** ** The further properties on examples *)

Module MoreExamples.

#[local] Existing Instance Sample.externals.

(** The bearer transport against a server that answers. *)
Lemma bearer_run :
  graphqlBackend_do Sample.up Sample.query Sample.bearer =
    (Sample.bearer, [EvHTTP Sample.bearer_request; EvReadAll; EvClose],
     Ok "response body").
Proof. reflexivity. Defined.

(** The macaroon transport against a server that answers. *)
Lemma macaroon_run :
  graphQLCore_do Sample.up Sample.query Sample.core0 =
    (nonce_incr Sample.core0,
     [EvAddNonce (Some ["root"]) 1; EvHTTP Sample.macaroon_request;
      EvReadAll; EvClose],
     Ok "response body").
Proof. reflexivity. Defined.

Lemma do_single_attempt_witness :
  (length (sent [EvHTTP Sample.bearer_request; EvReadAll; EvClose]) ≤ 1)%nat ∧
  ∃ req, sent [EvHTTP Sample.bearer_request; EvReadAll; EvClose] = [req].
Proof.
  destruct (proj1 (do_single_attempt Sample.up Sample.query)
              _ _ _ _ bearer_run) as [Hle Hone].
  split; [exact Hle | exact (Hone _ eq_refl)].
Defined.

Lemma sent_request_shape_witness :
  ∃ b u,
    json_Marshal Sample.query = Ok b ∧
    url_Parse (url Sample.core0) = Ok u ∧
    Method Sample.macaroon_request = "POST" ∧
    URL Sample.macaroon_request = u ∧
    Body Sample.macaroon_request = b.
Proof.
  exact (proj2 (sent_request_shape Sample.up Sample.query
                  Sample.macaroon_request)
           _ _ _ _ macaroon_run
           (list_elem_of_further _ _ _ (list_elem_of_here _ _))).
Defined.

Lemma unbuilt_request_changes_nothing_witness :
  graphqlBackend_do (H := Fixtures.unserializable) Sample.up Sample.query
    Sample.bearer =
    (Sample.bearer, [],
     Err "failed to json.Marshal request: json: unsupported type: chan int") ∧
  graphQLCore_do Sample.up Sample.query
    {| url := ":exchange"; macaroon := Some ["root"]; nonce := 5; jwt := "" |} =
    ({| url := ":exchange"; macaroon := Some ["root"]; nonce := 5; jwt := "" |},
     [], Err "failed to http.NewRequest: missing protocol scheme").
Proof.
  split.
  - exact (proj1 (proj1 (unbuilt_request_changes_nothing
                           (H := Fixtures.unserializable)
                           Sample.up Sample.query
                           "json: unsupported type: chan int") eq_refl)
             Sample.bearer).
  - exact (proj2 (proj2 (unbuilt_request_changes_nothing
                           Sample.up Sample.query "missing protocol scheme")
                    "{query}" eq_refl)
             {| url := ":exchange"; macaroon := Some ["root"]; nonce := 5;
                jwt := "" |} eq_refl).
Defined.

Lemma network_failure_witness :
  graphQLCore_do Fixtures.down Sample.query Sample.core0 =
    (nonce_incr Sample.core0,
     [EvAddNonce (Some ["root"]) 1; EvHTTP Sample.macaroon_request],
     Err "failed to do http request: connection refused") ∧
  (EvReadAll ∉ [EvAddNonce (Some ["root"]) 1; EvHTTP Sample.macaroon_request]) ∧
  (EvClose ∉ [EvAddNonce (Some ["root"]) 1; EvHTTP Sample.macaroon_request]) ∧
  nonce (nonce_incr Sample.core0) = int64_incr (nonce Sample.core0).
Proof.
  assert (Hdo : graphQLCore_do Fixtures.down Sample.query Sample.core0 =
    (nonce_incr Sample.core0,
     [EvAddNonce (Some ["root"]) 1; EvHTTP Sample.macaroon_request],
     Err "failed to do http request: connection refused")) by reflexivity.
  destruct (proj2 (network_failure Fixtures.down Sample.query
                     Sample.macaroon_request "connection refused" eq_refl)
              _ _ _ _ Hdo
              (list_elem_of_further _ _ _ (list_elem_of_here _ _)))
    as (_ & Hr & Hc & Hn).
  split_and!; [exact Hdo | exact Hr | exact Hc | exact (Hn eq_refl)].
Defined.

Lemma body_closed_when_received_witness :
  graphQLCore_do Sample.moved Sample.query Sample.core0 =
    (nonce_incr Sample.core0,
     [EvAddNonce (Some ["root"]) 1; EvHTTP Sample.macaroon_request; EvClose],
     Err "unexpected response status: 301 Moved Permanently") ∧
  EvClose ∈ [EvAddNonce (Some ["root"]) 1; EvHTTP Sample.macaroon_request;
             EvClose] ∧
  last [EvAddNonce (Some ["root"]) 1; EvHTTP Sample.macaroon_request; EvClose]
    = Some EvClose.
Proof.
  assert (Hdo : graphQLCore_do Sample.moved Sample.query Sample.core0 =
    (nonce_incr Sample.core0,
     [EvAddNonce (Some ["root"]) 1; EvHTTP Sample.macaroon_request; EvClose],
     Err "unexpected response status: 301 Moved Permanently")) by reflexivity.
  destruct (proj2 (body_closed_when_received Sample.moved Sample.query)
              _ _ _ _ Hdo) as [Hiff Hlast].
  assert (Hin : EvClose ∈ [EvAddNonce (Some ["root"]) 1;
                           EvHTTP Sample.macaroon_request; EvClose]).
  { apply (proj2 Hiff). exists Sample.macaroon_request, Fixtures.moved.
    split; [apply list_elem_of_further, list_elem_of_here | reflexivity]. }
  split_and!; [exact Hdo | exact Hin | exact (Hlast Hin)].
Defined.

Lemma do_succeeds_iff_witness :
  ∃ req resp,
    EvHTTP req ∈ [EvHTTP Sample.bearer_request; EvReadAll; EvClose] ∧
    roundTrip Sample.up req = Ok resp ∧
    StatusCode resp = StatusOK ∧ RespBody resp = Ok "response body".
Proof.
  exact (proj1 (proj1 (do_succeeds_iff Sample.up Sample.query "response body")
                  _ _ _ _ bearer_run) eq_refl).
Defined.

Lemma bearer_mode_is_stateless_witness :
  jwt Sample.core_jwt ≠ "" ∧
  graphQLCore_do Sample.up Sample.query Sample.core_jwt =
    (Sample.core_jwt, [EvHTTP Sample.jwt_request; EvReadAll; EvClose],
     Ok "response body") ∧
  nonces [EvHTTP Sample.jwt_request; EvReadAll; EvClose] = [].
Proof.
  assert (Hj : jwt Sample.core_jwt ≠ "") by discriminate.
  assert (Hdo : graphQLCore_do Sample.up Sample.query Sample.core_jwt =
    (Sample.core_jwt, [EvHTTP Sample.jwt_request; EvReadAll; EvClose],
     Ok "response body")) by reflexivity.
  split_and!; [exact Hj | exact Hdo |].
  exact (proj2 (proj2 (bearer_mode_is_stateless Sample.up Sample.query)
                  _ _ _ _ Hj Hdo)).
Defined.

(** Two calls of a fresh core, the second answered with a 301. *)
Lemma two_calls :
  calls [(Sample.up, Sample.query); (Sample.moved, Sample.query)] Sample.core0 =
    ({| url := "http://exchange/query"; macaroon := Some ["root"];
        nonce := 2; jwt := "" |},
     [EvAddNonce (Some ["root"]) 1; EvHTTP Sample.macaroon_request;
      EvReadAll; EvClose;
      EvAddNonce (Some ["root"]) 2;
      EvHTTP (Set_Header Sample.json_request "Authorization"
                "Macaroon root;nonce 2;time 1540000000");
      EvClose]).
Proof. reflexivity. Defined.

Lemma calls_keep_configuration_witness :
  macaroon {| url := "http://exchange/query"; macaroon := Some ["root"];
              nonce := 2; jwt := "" |} = macaroon Sample.core0 ∧
  jwt {| url := "http://exchange/query"; macaroon := Some ["root"];
         nonce := 2; jwt := "" |} = jwt Sample.core0 ∧
  (Some ["root"] : Macaroon) = macaroon Sample.core0.
Proof.
  destruct (calls_keep_configuration _ _ _ _ two_calls)
    as (_ & Hm & Hj & Hroot).
  split_and!; [exact Hm | exact Hj |].
  apply (Hroot (Some ["root"]) 2).
  do 4 apply list_elem_of_further. apply list_elem_of_here.
Defined.

Lemma nonces_are_consecutive_witness :
  is_int64 (nonce Sample.core0) ∧
  nonces [EvAddNonce (Some ["root"]) 1; EvHTTP Sample.macaroon_request;
          EvReadAll; EvClose;
          EvAddNonce (Some ["root"]) 2;
          EvHTTP (Set_Header Sample.json_request "Authorization"
                    "Macaroon root;nonce 2;time 1540000000");
          EvClose]
  = seqZ (nonce Sample.core0 + 1) 2.
Proof.
  assert (Hi : is_int64 (nonce Sample.core0))
    by (unfold is_int64, MinInt64, MaxInt64; cbn; lia).
  split; [exact Hi|].
  refine (proj1 (nonces_are_consecutive _ _ _ _ Hi _ two_calls)).
  unfold MaxInt64. cbn. lia.
Defined.

Lemma counter_counts_attempts_witness :
  is_int64 (nonce Sample.core_last) ∧
  nonce (calls [(Sample.up, Sample.query); (Sample.up, Sample.query)]
               Sample.core_last).1
  = int64_wrap (nonce Sample.core_last + 2) ∧
  int64_wrap (nonce Sample.core_last + 2) = MinInt64.
Proof.
  assert (Hi : is_int64 (nonce Sample.core_last))
    by (unfold is_int64; cbn; unfold MinInt64, MaxInt64; lia).
  split_and!; [exact Hi | | reflexivity].
  exact (proj1 (counter_counts_attempts
                  [(Sample.up, Sample.query); (Sample.up, Sample.query)]
                  Sample.core_last _ _ Hi
                  (surjective_pairing _))).
Defined.

Lemma sent_headers_exact_witness :
  dom (Header Sample.bearer_request)
  = ({["Content-Type"; "Authorization"]} : gset string).
Proof.
  exact (proj1 (sent_headers_exact Sample.up Sample.query Sample.bearer_request)
           _ _ _ _ bearer_run (list_elem_of_here _ _)).
Defined.

Lemma Error_nil_or_first_message_witness :
  ∃ e before after,
    elems (Errors Sample.failed) !! 0%nat = Some e ∧
    "some error, location: 123:12" = before +:+ Message e +:+ after.
Proof.
  exact (proj2 (Error_nil_or_first_message Sample.failed)
           "some error, location: 123:12" eq_refl).
Defined.

Lemma Error_first_and_count_witness :
  Error {| Errors := Some [
    {| Message := "some error"; Locations := None |};
    {| Message := "second error"; Locations := None |} ] |} =
  Error {| Errors := Some [
    {| Message := "some error"; Locations := Some [] |};
    {| Message := "another one";
       Locations := Some [ {| Line := 1; Column := 2 |} ] |} ] |}.
Proof.
  exact (Error_first_and_count
           {| Message := "some error"; Locations := None |}
           {| Message := "some error"; Locations := Some [] |}
           [ {| Message := "second error"; Locations := None |} ]
           [ {| Message := "another one";
                Locations := Some [ {| Line := 1; Column := 2 |} ] |} ]
           eq_refl eq_refl eq_refl).
Defined.

Lemma value_only_without_error_witness :
  (Client_Order (Unmarshal0 := Fixtures.decode_Order) Sample.up 7
     (Sample.mock "order 7")).2 = (Sample.order_7, None) ∧
  ∃ respJSON (resp : response Order),
    (do Sample.up {| Query := Order_Query;
                     Variables := orderRequestVariables 7 |}
        (client_core (Sample.mock "order 7"))).2 = Ok respJSON ∧
    Fixtures.decode_Order respJSON = Ok resp ∧
    len (Errors (base resp)) = 0 ∧ Sample.order_7 = Data resp.
Proof.
  assert (Hgood : (Client_Order (Unmarshal0 := Fixtures.decode_Order) Sample.up 7
     (Sample.mock "order 7")).2 = (Sample.order_7, None)) by reflexivity.
  split; [exact Hgood|].
  exact (proj1 (proj1 (proj1 (value_only_without_error
                                (Unmarshal0 := Fixtures.decode_Order)
                                (Unmarshal1 := Fixtures.decode_UserID)
                                (Unmarshal2 := Fixtures.decode_Tickers)
                                Sample.up (Sample.mock "order 7"))
                         7 Sample.order_7 None Hgood)) eq_refl).
Defined.

Lemma decoded_value_survives_exchange_error_witness :
  (Accounts (Unmarshal0 := Fixtures.decode_Accounts) Sample.up None
     (Sample.mock "accounts with an error")).2
    = (Some [Sample.btc],
       Some "exchange error: some error, location: 123:12") ∧
  Some [Sample.btc] =
    Data {| base := Sample.failed; Data := Some [Sample.btc] |}.
Proof.
  assert (Hout : (Accounts (Unmarshal0 := Fixtures.decode_Accounts) Sample.up None
     (Sample.mock "accounts with an error")).2
    = (Some [Sample.btc],
       Some "exchange error: some error, location: 123:12")) by reflexivity.
  split; [exact Hout|].
  exact (proj1 (proj2 (proj1 (decoded_value_survives_exchange_error
                                (Unmarshal0 := Fixtures.decode_Accounts)
                                (Unmarshal1 := Fixtures.decode_IssueApiToken)
                                Sample.up
                                (Sample.mock "accounts with an error"))
                         None _ _ Hout))
           "accounts with an error"
           {| base := Sample.failed; Data := Some [Sample.btc] |}
           eq_refl eq_refl).
Defined.

Lemma mock_records_request_witness :
  len (Some ["BTCETH"] : slice string) ≠ 0 ∧
  (Tickers (Unmarshal0 := Fixtures.decode_Tickers) Sample.up (Some ["BTCETH"])
     (Sample.mock "tickers")).1 =
  ({| client_core :=
        {| mock_request :=
             {| Query := Tickers_Query;
                Variables := tickersRequestVariables (Some ["BTCETH"]) |};
           respJSON := "tickers"; mock_error := None |} |},
   []).
Proof.
  assert (Hlen : len (Some ["BTCETH"] : slice string) ≠ 0) by discriminate.
  split; [exact Hlen|].
  exact (proj2 (proj2 (proj2 (proj2
           (mock_records_request
              (Unmarshal0 := Fixtures.decode_Order)
              (Unmarshal1 := Fixtures.decode_Accounts)
              (Unmarshal2 := Fixtures.decode_UserID)
              (Unmarshal3 := Fixtures.decode_IssueApiToken)
              (Unmarshal4 := Fixtures.decode_Tickers)
              Sample.up (Sample.mock "tickers")))))
           (Some ["BTCETH"]) Hlen).
Defined.

Lemma operation_consumes_one_nonce_witness :
  jwt Sample.core0 = "" ∧
  nonce (client_core
           (Client_Order (Unmarshal0 := Fixtures.decode_Order) Fixtures.down 7
              {| client_core := Sample.core0 |}).1.1)
    = int64_incr (nonce Sample.core0) ∧
  nonces (Client_Order (Unmarshal0 := Fixtures.decode_Order) Fixtures.down 7
            {| client_core := Sample.core0 |}).1.2
    = [int64_incr (nonce Sample.core0)].
Proof.
  split; [reflexivity|].
  exact (proj1 (operation_consumes_one_nonce
                  (Unmarshal0 := Fixtures.decode_Order)
                  (Unmarshal1 := Fixtures.decode_Tickers)
                  Fixtures.down Sample.core0 _ "http://exchange/query"
                  eq_refl eq_refl)
           7 eq_refl).
Defined.

Lemma bearer_client_end_to_end_witness :
  let '(c', tr, (id, err)) :=
    UserID (Unmarshal0 := Fixtures.decode_UserID) (Fixtures.serving "user 42")
      (NewBearerClient "http://exchange/query" "token") in
  c' = NewBearerClient "http://exchange/query" "token" ∧
  id = "42" ∧ err = None.
Proof.
  pose proof (bearer_client_end_to_end
                (Unmarshal0 := Fixtures.decode_UserID)
                (Fixtures.serving "user 42")
                "http://exchange/query" "token" _ "http://exchange/query"
                {| StatusCode := 200; Status := "200 OK";
                   RespBody := Ok "user 42" |}
                eq_refl eq_refl eq_refl) as Hrun.
  destruct (UserID (Unmarshal0 := Fixtures.decode_UserID)
              (Fixtures.serving "user 42")
              (NewBearerClient "http://exchange/query" "token"))
    as [[c' tr] [id err]].
  destruct Hrun as (Hc & _ & _ & Hok).
  split; [exact Hc|].
  exact (proj1 (Hok "user 42"
                  {| base := Fixtures.succeeded;
                     Data := {| User_ID := "42" |} |}
                  eq_refl eq_refl eq_refl) eq_refl).
Defined.

Lemma fresh_client_counts_from_one_witness :
  NewClient "http://exchange/query" "0201" "" =
    (Some {| client_core :=
               {| url := "http://exchange/query"; macaroon := Some ["0201"];
                  nonce := 0; jwt := "" |} |}, None) ∧
  nonces (calls [(Sample.up, Sample.query); (Fixtures.down, Sample.query)]
                {| url := "http://exchange/query"; macaroon := Some ["0201"];
                   nonce := 0; jwt := "" |}).2 = seqZ 1 2.
Proof.
  split; [reflexivity|].
  refine (proj1 (fresh_client_counts_from_one
                   "http://exchange/query" "0201" "" _
                   [(Sample.up, Sample.query); (Fixtures.down, Sample.query)]
                   _ _ eq_refl _ (surjective_pairing _))).
  unfold MaxInt64. cbn. lia.
Defined.

End MoreExamples.
